(** * Habit tracker: a shallow embedding of [habit_track.py]

    The development follows the layout of the source file: the time
    values pandas hands to the program, the SQLite tables, the
    authentication and habit functions, and the streak and success-rate
    computations of the visualisation page. *)

From Stdlib Require Import ZArith QArith Qround Qabs Qpower Lia Lqa Bool Ascii String.
From Stdlib Require Import PrimFloat SpecFloat FloatOps.
From stdpp Require Import base decidable option list sorting gmap strings.

Local Open Scope Z_scope.

(** ** Time values

    A [datetime64] cell of a pandas column holds either a [Timestamp]
    (here: microseconds since the epoch, the resolution of
    [datetime.datetime.now()]) or the missing value [NaT]. *)

Module DateTime.

Definition US_PER_SECOND : Z := 1000000.
Definition US_PER_DAY : Z := 86400 * US_PER_SECOND.

Inductive datetime64 : Type :=
| Timestamp (value : Z)
| NaT.

Inductive timedelta64 : Type :=
| Timedelta (value : Z)
| NaTd.

#[global] Instance datetime64_eq_dec : EqDecision datetime64.
Proof. solve_decision. Defined.

#[global] Instance timedelta64_eq_dec : EqDecision timedelta64.
Proof. solve_decision. Defined.

(** [date - prev_date]: the difference of two cells; [NaT] is absorbing. *)
Definition dt_sub (a b : datetime64) : timedelta64 :=
  match a, b with
  | Timestamp x, Timestamp y => Timedelta (x - y)
  | _, _ => NaTd
  end.

(** [Timedelta.days]: the number of whole days, rounded towards minus
    infinity; [nan] (here [None]) for the missing value. *)
Definition days (d : timedelta64) : option Z :=
  match d with
  | Timedelta v => Some (v / US_PER_DAY)
  | NaTd => None
  end.

(** [x.days == 1]; a comparison with [nan] is false. *)
Definition days_eq_1 (d : timedelta64) : bool :=
  match days d with
  | Some n => n =? 1
  | None => false
  end.

(** [Timestamp.date()] and [Series.dt.date]: the calendar day of a
    timestamp, as the number of the day counted from the epoch. *)
Definition to_date (t : Z) : Z := t / US_PER_DAY.

Definition dt_date (d : datetime64) : option Z :=
  match d with
  | Timestamp t => Some (to_date t)
  | NaT => None
  end.

(** Truth value of a cell in a condition: neither a [Timestamp] nor
    [NaT] defines an own truth value, so both count as true. *)
Definition truthy (d : datetime64) : bool := true.

(** The order [sort_values] uses: ascending, missing values last. *)
Definition dt_le (a b : datetime64) : Prop :=
  match a, b with
  | Timestamp x, Timestamp y => x <= y
  | _, NaT => True
  | NaT, Timestamp _ => False
  end.

#[global] Instance dt_le_dec : RelDecision dt_le.
Proof. intros [x|] [y|]; simpl; apply _. Defined.

(** A timestamp built from a day number and a time of day. *)
Definition at_clock (day h m s : Z) : Z :=
  day * US_PER_DAY + ((h * 60 + m) * 60 + s) * US_PER_SECOND.

End DateTime.

Export DateTime.

(** ** The rows of a habits frame *)

Record habit_entry : Type := mk_entry {
  h_id : Z;
  h_user_id : Z;
  h_name : string;
  h_date : datetime64;
  h_status : string;
  h_notes : option string
}.

#[global] Instance habit_entry_eq_dec : EqDecision habit_entry.
Proof. solve_decision. Defined.

(** ** Streaks *)

Module Pandas.

(** [Series.unique()]: the distinct values in order of first appearance. *)
Fixpoint unique (l : list string) : list string :=
  match l with
  | [] => []
  | x :: t => x :: filter (λ y, y ≠ x) (unique t)
  end.

(** [Series.sort_values()]. *)
Definition sort_values (l : list datetime64) : list datetime64 :=
  merge_sort dt_le l.

End Pandas.

Export Pandas.

(** The three variables of the inner loop of [calculate_streaks]. *)
Record streak_state : Type := mk_streak {
  max_streak : Z;
  current_streak : Z;
  prev_date : option datetime64
}.

Definition streak_init : streak_state :=
  {| max_streak := 0; current_streak := 0; prev_date := None |}.

(** [if prev_date and (date - prev_date).days == 1]. *)
Definition continues (prev : option datetime64) (date : datetime64) : bool :=
  match prev with
  | None => false
  | Some p => truthy p && days_eq_1 (dt_sub date p)
  end.

(** One iteration of [for date in dates]. *)
Definition streak_step (st : streak_state) (date : datetime64) : streak_state :=
  let cur := if continues (prev_date st) date
             then current_streak st + 1
             else 1 in
  {| max_streak := Z.max (max_streak st) cur;
     current_streak := cur;
     prev_date := Some date |}.

(** The whole loop, from [max_streak, current_streak = 0, 0] and
    [prev_date = None]. *)
Definition streak_loop (dates : list datetime64) : streak_state :=
  foldl streak_step streak_init dates.

(** [habit_data[habit_data["name"] == habit]["date"]]. *)
Definition dates_of (habit : string) (habit_data : list habit_entry)
  : list datetime64 :=
  h_date <$> filter (λ e, h_name e = habit) habit_data.

(** The value stored under [streaks[habit]]: [max_streak] after the loop
    over the sorted dates of the habit. *)
Definition longest_streak (habit : string) (habit_data : list habit_entry) : Z :=
  max_streak (streak_loop (sort_values (dates_of habit habit_data))).

(** [calculate_streaks]: one key for every name of the frame. *)
Definition calculate_streaks (habit_data : list habit_entry) : gmap string Z :=
  foldl (λ streaks habit, <[habit := longest_streak habit habit_data]> streaks)
        ∅ (unique (h_name <$> habit_data)).

(** [whole_days p ts]: starting from [p], every timestamp of [ts] is at
    least one and less than two whole days after the one before, which
    is what the test of the loop asks of two neighbours. *)
Fixpoint whole_days (p : Z) (ts : list Z) : Prop :=
  match ts with
  | [] => True
  | t :: ts' => (t - p) / US_PER_DAY = 1 ∧ whole_days t ts'
  end.

(** [calendar_days p ts]: starting from [p], every timestamp of [ts]
    falls on the calendar day after the one before. *)
Fixpoint calendar_days (p : Z) (ts : list Z) : Prop :=
  match ts with
  | [] => True
  | t :: ts' => to_date t = to_date p + 1 ∧ calendar_days t ts'
  end.

(** ** The SQLite store *)

Module Store.

(** Table [users]. *)
Record user_row : Type := mk_user {
  u_id : Z;
  u_username : string;
  u_password : string
}.

(** Table [habits]; the [date] column holds the text SQLite was given. *)
Record habit_row : Type := mk_row {
  r_id : Z;
  r_user_id : Z;
  r_name : string;
  r_date : string;
  r_status : string;
  r_notes : option string
}.

(** The database file: both tables in row order, and for each table the
    largest id handed out so far ([sqlite_sequence]). *)
Record database : Type := mk_db {
  users : list user_row;
  users_seq : Z;
  habits : list habit_row;
  habits_seq : Z
}.

#[global] Instance user_row_eq_dec : EqDecision user_row.
Proof. solve_decision. Defined.

#[global] Instance habit_row_eq_dec : EqDecision habit_row.
Proof. solve_decision. Defined.

#[global] Instance database_eq_dec : EqDecision database.
Proof. solve_decision. Defined.

(** The state [create_tables] leaves behind on a fresh file. *)
Definition create_tables : database :=
  {| users := []; users_seq := 0; habits := []; habits_seq := 0 |}.

(** [INTEGER PRIMARY KEY AUTOINCREMENT]: one more than every id that
    exists or has existed. *)
Definition next_rowid (seq : Z) (ids : list Z) : Z :=
  Z.max seq (foldr Z.max 0 ids) + 1.

Inductive sqlite_error : Type :=
| IntegrityError (msg : string).

(** [INSERT INTO users (username, password) VALUES (?, ?)] followed by
    [commit]; the [UNIQUE] constraint on [username] rejects a second row
    with the same name. *)
Definition insert_user (username password : string) (db : database)
  : sqlite_error + database :=
  if decide (username ∈ u_username <$> users db)
  then inl (IntegrityError "UNIQUE constraint failed: users.username")
  else
    let new_id := next_rowid (users_seq db) (u_id <$> users db) in
    inr {| users := users db ++ [mk_user new_id username password];
           users_seq := new_id;
           habits := habits db;
           habits_seq := habits_seq db |}.

(** [SELECT * FROM users WHERE username=? AND password=?]. *)
Definition select_user (username password : string) (db : database)
  : list user_row :=
  filter (λ u, u_username u = username ∧ u_password u = password) (users db).

(** [INSERT INTO habits (...) VALUES (...)] followed by [commit]. *)
Definition insert_habit (user_id : Z) (name date status : string)
    (notes : option string) (db : database) : database :=
  let new_id := next_rowid (habits_seq db) (r_id <$> habits db) in
  {| users := users db;
     users_seq := users_seq db;
     habits := habits db ++ [mk_row new_id user_id name date status notes];
     habits_seq := new_id |}.

(** [SELECT * FROM habits WHERE user_id=?]. *)
Definition select_habits (user_id : Z) (db : database) : list habit_row :=
  filter (λ r, r_user_id r = user_id) (habits db).

(** The first text of the [date] column of a user once a row dated
    [date] has been appended: that of the user's first row, and [date]
    itself for a user without rows. *)
Definition first_date (user_id : Z) (date : string) (db : database) : string :=
  match select_habits user_id db with
  | [] => date
  | first :: _ => r_date first
  end.

End Store.

Export Store.

(** ** Authentication *)

(** The value [register_user] returns, the messages it passes to
    [st.error], and the database afterwards. *)
Definition register_user (username password : string) (db : database)
  : bool * list string * database :=
  match insert_user username password db with
  | inr db' => (true, [], db')
  | inl (IntegrityError e) => (false, ["Registration failed: " +:+ e], db)
  end.

(** The message of a registration under a name that is taken. *)
Definition duplicate_message : string :=
  "Registration failed: UNIQUE constraint failed: users.username".

(** [cursor.fetchone()] on the matching rows. *)
Definition login_user (username password : string) (db : database)
  : option user_row :=
  head (select_user username password db).

(** ** Habit management *)

(** A [datetime.datetime] value, as [datetime.datetime.now()] returns it. *)
Record pydatetime : Type := mk_datetime {
  year : Z;
  month : Z;
  day : Z;
  hour : Z;
  minute : Z;
  second : Z;
  microsecond : Z
}.

Section HabitManagement.

(** The two conversions the program leaves to its libraries: the text
    [sqlite3] stores for a [datetime.datetime] parameter, and
    [pd.to_datetime(column, errors="coerce")]. pandas converts the
    column in one call and takes the layout of its first text for all of
    it, so what a text converts to depends on the first text of its
    column: [to_datetime first text] is the cell for [text] in a column
    that starts with [first], [NaT] where [text] does not convert. *)
Variable adapt_datetime : pydatetime → string.
Variable to_datetime : string → string → datetime64.

(** One row of the frame, its date converted by [convert]. *)
Definition entry_of_row (convert : string → datetime64) (r : habit_row)
  : habit_entry :=
  {| h_id := r_id r;
     h_user_id := r_user_id r;
     h_name := r_name r;
     h_date := convert (r_date r);
     h_status := r_status r;
     h_notes := r_notes r |}.

(** [pd.read_sql] followed by the conversion of the [date] column, which
    the table always has. *)
Definition load_user_habits (user_id : Z) (db : database) : list habit_entry :=
  match select_habits user_id db with
  | [] => []
  | first :: rows =>
      entry_of_row (to_datetime (r_date first)) <$> first :: rows
  end.

(** [now] is the reading of the clock at the call. *)
Definition add_habit (user_id : Z) (habit_name notes : string)
    (now : pydatetime) (db : database) : database :=
  insert_habit user_id habit_name (adapt_datetime now) "Started" (Some notes) db.

(** The [INSERT] names no [notes] column, so the row gets [NULL] there. *)
Definition log_habit_progress (user_id : Z) (habit_name status : string)
    (now : pydatetime) (db : database) : database :=
  insert_habit user_id habit_name (adapt_datetime now) status None db.

End HabitManagement.

(** ** The visualisation page *)

(** [Series.dt.date >= start_date] and [Series.dt.date <= end_date]; a
    row whose date is missing compares false. *)
Definition date_ge (d : datetime64) (start_date : Z) : bool :=
  match dt_date d with
  | Some x => start_date <=? x
  | None => false
  end.

Definition date_le (d : datetime64) (end_date : Z) : bool :=
  match dt_date d with
  | Some x => x <=? end_date
  | None => false
  end.

(** The selection [filtered_data] of the page. *)
Definition filtered_data (habits_data : list habit_entry)
    (selected_habit : string) (start_date end_date : Z) : list habit_entry :=
  filter (λ e, bool_decide (h_name e = selected_habit)
               && date_ge (h_date e) start_date
               && date_le (h_date e) end_date)
         habits_data.

(** What the selection is meant to keep, in the words of the
    specification: the entries of the given name whose timestamp has a
    date component in the closed range from [start_date] to [end_date]. *)
Definition in_range (start_date end_date : Z) (d : datetime64) : Prop :=
  match d with
  | Timestamp t => start_date <= to_date t <= end_date
  | NaT => False
  end.

Definition kept (name : string) (start_date end_date : Z) (e : habit_entry)
  : Prop :=
  h_name e = name ∧ in_range start_date end_date (h_date e).

#[global] Instance in_range_dec (start_date end_date : Z) (d : datetime64) :
  Decision (in_range start_date end_date d).
Proof. destruct d; simpl; apply _. Defined.

#[global] Instance kept_dec (name : string) (start_date end_date : Z)
    (e : habit_entry) : Decision (kept name start_date end_date e).
Proof. unfold kept. apply _. Defined.

Definition total_logs (data : list habit_entry) : Z :=
  Z.of_nat (length data).

Definition completed_logs (data : list habit_entry) : Z :=
  Z.of_nat (length (filter (λ e, h_status e = "completed") data)).



(** ** Floats

    Python computes the success rate in binary64: every operation gives
    the float nearest to the exact result, ties going to the even
    mantissa. A float is held here as the rational it denotes. *)

Module Binary64.

(** The integer nearest to [x], the even one of two that are equally
    near. *)
Definition round_half_even (x : Q) : Z :=
  let f := Qfloor x in
  match (x - inject_Z f ?= 1 # 2)%Q with
  | Lt => f
  | Gt => f + 1
  | Eq => if Z.even f then f else f + 1
  end.

(** The exponent [e] of a positive [x]: [2 ^ e <= x < 2 ^ (e + 1)]. *)
Definition exponent (x : Q) : Z :=
  let k := Z.log2 (Qnum x) - Z.log2 (Z.pos (Qden x)) in
  if Qle_bool (2 ^ k) x then k else k - 1.

(** The smallest exponent of a normal float, and the largest float. *)
Definition emin : Z := -1022.
Definition largest : Q := (inject_Z (2 ^ 53 - 1) * 2 ^ 971)%Q.

(** The float nearest to [x]: 53 bits of mantissa at the exponent of
    [x], which is not taken below [emin]; [None] when the result is
    beyond the largest float. *)
Definition round64 (x : Q) : option Q :=
  if Qeq_bool x 0 then Some 0%Q
  else
    let a := Qabs x in
    let e := Z.max (exponent a) emin in
    let s := 52 - e in
    let y := (inject_Z (round_half_even (a * 2 ^ s)) * 2 ^ (- s))%Q in
    if Qle_bool y largest
    then Some (if Qle_bool 0 x then y else - y)%Q
    else None.

(** [a / b] on two integers: the float nearest to the quotient;
    [ZeroDivisionError] when [b] is zero and [OverflowError] beyond the
    largest float (both [None]). *)
Definition int_truediv (a b : Z) : option Q :=
  if b =? 0 then None else round64 (inject_Z a / inject_Z b).

(** [x * y] on two floats: the float nearest to the product; beyond the
    largest float Python gives an infinity, which has no value here
    ([None]). *)
Definition float_mul (x y : Q) : option Q := round64 (x * y).

(** The rational a float of the processor denotes ([None] for an
    infinity or a NaN), to compare the model with the machine. *)
Definition float_value (x : float) : option Q :=
  match Prim2SF x with
  | S754_zero _ => Some 0%Q
  | S754_finite sign m e =>
      Some ((if sign then - inject_Z (Z.pos m) else inject_Z (Z.pos m))
            * 2 ^ e)%Q
  | _ => None
  end.

End Binary64.

Export Binary64.

(** [(completed_logs / total_logs) * 100 if total_logs else 0], as
    Python computes it. *)
Definition success_rate_binary64 (data : list habit_entry) : option Q :=
  if negb (total_logs data =? 0)
  then q ← int_truediv (completed_logs data) (total_logs data);
       float_mul q 100
  else Some 0%Q.

(** ** The text of a stored date

    [sqlite3] stores a [datetime.datetime] as [isoformat(" ")], and the
    frame gets that text back. [isoformat_space] is that layout, with a
    fraction when the microseconds are not zero and without one when
    they are; [to_datetime_iso] converts a column of such texts and
    coerces every other text to [NaT]. *)

Module Iso.

Definition digit_char (n : Z) : ascii :=
  ascii_of_N (Z.to_N (48 + n mod 10)).

Fixpoint digits (width : nat) (n : Z) : list ascii :=
  match width with
  | O => []
  | S w => digits w (n / 10) ++ [digit_char n]
  end.

Definition isoformat_space (d : pydatetime) : string :=
  string_of_list_ascii
    (digits 4 (year d) ++ ["-"%char] ++ digits 2 (month d) ++ ["-"%char]
     ++ digits 2 (day d) ++ [" "%char] ++ digits 2 (hour d) ++ [":"%char]
     ++ digits 2 (minute d) ++ [":"%char] ++ digits 2 (second d)
     ++ (if microsecond d =? 0 then []
         else ["."%char] ++ digits 6 (microsecond d))).

Definition digit_value (c : ascii) : option Z :=
  let n := Z.of_N (N_of_ascii c) in
  if (48 <=? n) && (n <=? 57) then Some (n - 48) else None.

Fixpoint number (acc : Z) (cs : list ascii) : option Z :=
  match cs with
  | [] => Some acc
  | c :: cs' => d ← digit_value c; number (acc * 10 + d) cs'
  end.

(** [width] digits, then the rest of the text. *)
Definition field (width : nat) (cs : list ascii) : option (Z * list ascii) :=
  if decide (length (take width cs) = width)
  then n ← number 0 (take width cs); Some (n, drop width cs)
  else None.

Definition expect (c : ascii) (cs : list ascii) : option (list ascii) :=
  match cs with
  | c' :: cs' => if decide (c' = c) then Some cs' else None
  | [] => None
  end.

Definition is_leap (y : Z) : bool :=
  (y mod 4 =? 0) && (negb (y mod 100 =? 0) || (y mod 400 =? 0)).

Definition days_in_month (y m : Z) : Z :=
  if m =? 2 then (if is_leap y then 29 else 28)
  else if (m =? 4) || (m =? 6) || (m =? 9) || (m =? 11) then 30
  else 31.

(** The day number of a civil date, counted from 1970-01-01. *)
Definition days_from_civil (y m d : Z) : Z :=
  let y' := if m <=? 2 then y - 1 else y in
  let era := y' / 400 in
  let yoe := y' - era * 400 in
  let mp := if m <=? 2 then m + 9 else m - 3 in
  let doy := (153 * mp + 2) / 5 + d - 1 in
  let doe := yoe * 365 + yoe / 4 - yoe / 100 + doy in
  era * 146097 + doe - 719468.

Definition valid (d : pydatetime) : bool :=
  (1 <=? year d) && (1 <=? month d) && (month d <=? 12)
  && (1 <=? day d) && (day d <=? days_in_month (year d) (month d))
  && (hour d <? 24) && (minute d <? 60) && (second d <? 60).

Definition timestamp_of (d : pydatetime) : Z :=
  at_clock (days_from_civil (year d) (month d) (day d))
           (hour d) (minute d) (second d)
  + microsecond d.

(** The two layouts [isoformat(" ")] writes. *)
Inductive layout : Type :=
| whole_seconds
| with_fraction.

#[global] Instance layout_eq_dec : EqDecision layout.
Proof. solve_decision. Defined.

Definition parse (cs : list ascii) : option (layout * pydatetime) :=
  '(y, cs) ← field 4 cs; cs ← expect "-"%char cs;
  '(m, cs) ← field 2 cs; cs ← expect "-"%char cs;
  '(d, cs) ← field 2 cs; cs ← expect " "%char cs;
  '(h, cs) ← field 2 cs; cs ← expect ":"%char cs;
  '(mi, cs) ← field 2 cs; cs ← expect ":"%char cs;
  '(s, cs) ← field 2 cs;
  match cs with
  | [] => Some (whole_seconds, mk_datetime y m d h mi s 0)
  | _ => cs ← expect "."%char cs;
         '(us, cs) ← field 6 cs;
         match cs with
         | [] => Some (with_fraction, mk_datetime y m d h mi s us)
         | _ => None
         end
  end.

(** A text of one of the two layouts that names a date and a time. *)
Definition read (s : string) : option (layout * pydatetime) :=
  '(l, d) ← parse (list_ascii_of_string s);
  if valid d then Some (l, d) else None.

(** The conversion of [text] in a column that starts with [first]: the
    column takes the layout of [first], and a text of the other layout
    is coerced to [NaT] like a text that is no date at all; when [first]
    has neither layout, every text is read by itself. Only the two
    layouts the adapter writes are read: a date in any other layout,
    which pandas may well read, counts as no date here. *)
Definition to_datetime_iso (first text : string) : datetime64 :=
  match read text with
  | Some (l, d) =>
      match read first with
      | Some (l0, _) =>
          if decide (l = l0) then Timestamp (timestamp_of d) else NaT
      | None => Timestamp (timestamp_of d)
      end
  | None => NaT
  end.

End Iso.

(** ** Sample sessions

    Databases built by the program's own calls on a fresh file, for a
    user with id 1 and the habit "Read". *)

Module Samples.

Import Iso.

Definition load (db : database) : list habit_entry :=
  load_user_habits to_datetime_iso 1 db.

Definition add (notes : string) (now : pydatetime) (db : database) : database :=
  add_habit isoformat_space 1 "Read" notes now db.

Definition log (status : string) (now : pydatetime) (db : database) : database :=
  log_habit_progress isoformat_space 1 "Read" status now db.

Definition march (d h : Z) : pydatetime := mk_datetime 2024 3 d h 0 0 0.

(** Added late on 1 March, logged early on 2 March. *)
Definition late_then_early : database :=
  log "completed" (march 2 1) (add "daily" (march 1 23) create_tables).

(** 1, 2 and 3 March, nothing on 4 March, then 5 and 6 March. *)
Definition three_gap_two : database :=
  log "completed" (march 6 1)
    (log "completed" (march 5 1)
      (log "completed" (march 3 23)
        (log "completed" (march 2 0)
          (add "daily" (march 1 0) create_tables)))).

(** The same five days, every entry made at noon. *)
Definition three_gap_two_noon : database :=
  log "completed" (march 6 12)
    (log "completed" (march 5 12)
      (log "completed" (march 3 12)
        (log "completed" (march 2 12)
          (add "daily" (march 1 12) create_tables)))).

(** 1, 2 and 3 March at noon. *)
Definition three_days : database :=
  log "completed" (march 3 12)
    (log "completed" (march 2 12)
      (add "daily" (march 1 12) create_tables)).

(** Added on the full second, logged half a second past one: the two
    layouts of the adapter in one column. *)
Definition mixed_layouts : database :=
  log "completed" (mk_datetime 2024 3 2 8 0 0 500000)
    (add "daily" (march 1 8) create_tables).

(** A row of another user on the table. *)
Definition other_user : database :=
  add_habit isoformat_space 2 "Run" "weekly" (march 1 7) create_tables.

(** A selection of two completed entries and a skipped one. *)
Definition two_of_three : list habit_entry :=
  [mk_entry 2 1 "Read" (Timestamp 1709380800000000) "completed" None;
   mk_entry 3 1 "Read" (Timestamp 1709467200000000) "completed" None;
   mk_entry 4 1 "Read" (Timestamp 1709553600000000) "skipped" None].


End Samples.

(** ** The default date range

    [st.date_input] starts from the smallest and the largest date of the
    frame. *)

(** [Series.min()] and [Series.max()] of a date column: missing values
    are skipped, and the result is missing when nothing is left. *)
Definition series_min (l : list datetime64) : datetime64 :=
  foldr (λ d acc, match d, acc with
                  | Timestamp t, Timestamp a => Timestamp (Z.min t a)
                  | Timestamp t, NaT => Timestamp t
                  | NaT, _ => acc
                  end) NaT l.

Definition series_max (l : list datetime64) : datetime64 :=
  foldr (λ d acc, match d, acc with
                  | Timestamp t, Timestamp a => Timestamp (Z.max t a)
                  | Timestamp t, NaT => Timestamp t
                  | NaT, _ => acc
                  end) NaT l.

(** [habits_data["date"].min().date()] and [....max().date()]: the dates
    of the smallest and of the largest timestamp; there are none (here
    [None]) when no entry has a date. *)
Definition default_dates (habits_data : list habit_entry) : option (Z * Z) :=
  start_date ← dt_date (series_min (h_date <$> habits_data));
  end_date ← dt_date (series_max (h_date <$> habits_data));
  Some (start_date, end_date).

(** ** The pages

    Streamlit runs the script again on every click. Session state and
    database change only in the body of the button that was clicked, so
    one run is the handler of one button applied to the values of the
    widgets. *)

Inductive message : Type :=
| st_error (text : string)
| st_success (text : string)
| st_warning (text : string)
| st_info (text : string).

(** [st.session_state]; [user_id] is absent until a login sets it. *)
Record session_state : Type := mk_session {
  logged_in : bool;
  session_user_id : option Z;
  habits_data : list habit_entry
}.

Definition session_init : session_state :=
  {| logged_in := false; session_user_id := None; habits_data := [] |}.

Record app_state : Type := mk_app {
  session : session_state;
  store : database
}.

Definition app_init : app_state :=
  {| session := session_init; store := create_tables |}.

(** [not s] on a string. *)
Definition is_empty (s : string) : bool := bool_decide (s = "").

(** The options of the radio "Status:". *)
Inductive log_status : Type :=
| completed
| inprogress
| skipped.

Definition status_text (s : log_status) : string :=
  match s with
  | completed => "completed"
  | inprogress => "inprogress"
  | skipped => "skipped"
  end.

(** The body of [if st.sidebar.button("Register")]; [clear] is what the
    inner button "Clear" returns. *)
Definition register_clicked (username password confoirm_password : string)
    (clear : bool) (db : database) : list message * database :=
  if is_empty username || is_empty password
  then ([st_error "Username and password cannot be empty."], db)
  else
    let '(registered, errors, db') := register_user username password db in
    let shown := st_error <$> errors in
    if registered
    then (shown ++ [st_success "Registered successfully!"], db')
    else if is_empty password || is_empty confoirm_password
    then (shown ++ [st_error "Password cannot be empty."], db')
    else if negb (bool_decide (password = confoirm_password))
    then (shown ++ [st_error "Passwords do not match."], db')
    else if clear
    then (shown ++ [st_success "Input fields cleared."], db')
    else (shown ++ [st_error "Username already exists or error occurred."], db').

Section Pages.

Variable adapt_datetime : pydatetime → string.
Variable to_datetime : string → string → datetime64.

(** The body of [if st.sidebar.button("Login")]. *)
Definition login_clicked (username password : string) (s : app_state)
  : list message * app_state :=
  if is_empty username || is_empty password
  then ([st_error "Username and password cannot be empty."], s)
  else
    match login_user username password (store s) with
    | Some user =>
        ([st_success ("Welcome back, " +:+ username +:+ "!")],
         {| session :=
              {| logged_in := true;
                 session_user_id := Some (u_id user);
                 habits_data :=
                   load_user_habits to_datetime (u_id user) (store s) |};
            store := store s |})
    | None => ([st_error "Invalid credentials."], s)
    end.

(** The body of [if st.button("Add Habit")]; reading [user_id] from a
    session that has none raises (here [None]). *)
Definition add_habit_clicked (new_habit notes : string) (now : pydatetime)
    (s : app_state) : option (list message * app_state) :=
  if negb (is_empty new_habit)
  then
    user_id ← session_user_id (session s);
    let db := add_habit adapt_datetime user_id new_habit notes now (store s) in
    Some ([st_success "Habit added successfully."],
          {| session :=
               {| logged_in := logged_in (session s);
                  session_user_id := Some user_id;
                  habits_data := load_user_habits to_datetime user_id db |};
             store := db |})
  else Some ([st_error "Habit name cannot be empty."], s).

(** The page "Log Habit": [choice] is the position chosen in the select
    box of the habit names; the button exists only while the frame is
    not empty. *)
Definition log_progress_clicked (choice : nat) (status : log_status)
    (now : pydatetime) (s : app_state) : option (list message * app_state) :=
  if bool_decide (habits_data (session s) ≠ [])
  then
    match unique (h_name <$> habits_data (session s)) !! choice with
    | Some selected_habit =>
        user_id ← session_user_id (session s);
        let db := log_habit_progress adapt_datetime user_id selected_habit
                    (status_text status) now (store s) in
        Some ([st_success ("Progress for '" +:+ selected_habit
                           +:+ "' logged as '" +:+ status_text status +:+ "'.")],
              {| session :=
                   {| logged_in := logged_in (session s);
                      session_user_id := Some user_id;
                      habits_data := load_user_habits to_datetime user_id db |};
                 store := db |})
    | None => Some ([], s)
    end
  else Some ([st_warning "No habits added yet."], s).

(** A click on one of the four buttons. *)
Inductive click : Type :=
| ClickRegister (username password confoirm_password : string) (clear : bool)
| ClickLogin (username password : string)
| ClickAddHabit (new_habit notes : string) (now : pydatetime)
| ClickLogProgress (choice : nat) (status : log_status) (now : pydatetime).

(** One run of the script; the pages of the menu exist only under
    [if st.session_state.logged_in]. *)
Definition rerun (c : click) (s : app_state) : option (list message * app_state) :=
  match c with
  | ClickRegister username password confoirm_password clear =>
      let '(shown, db) :=
        register_clicked username password confoirm_password clear (store s) in
      Some (shown, {| session := session s; store := db |})
  | ClickLogin username password => Some (login_clicked username password s)
  | ClickAddHabit new_habit notes now =>
      if logged_in (session s)
      then add_habit_clicked new_habit notes now s
      else Some ([], s)
  | ClickLogProgress choice status now =>
      if logged_in (session s)
      then log_progress_clicked choice status now s
      else Some ([], s)
  end.

Fixpoint run (clicks : list click) (s : app_state) : option app_state :=
  match clicks with
  | [] => Some s
  | c :: clicks' => '(_, s') ← rerun c s; run clicks' s'
  end.

(** The session of a state: logged out it is the initial one, logged in
    it names a stored user and holds that user's stored entries. *)
Definition session_ok (s : app_state) : Prop :=
  if logged_in (session s)
  then ∃ u, u ∈ users (store s)
            ∧ session_user_id (session s) = Some (u_id u)
            ∧ habits_data (session s)
              = load_user_habits to_datetime (u_id u) (store s)
  else session s = session_init.

End Pages.

(** A habit row with a name, one of the four statuses and an owner. *)
Definition row_ok (db : database) (r : habit_row) : Prop :=
  r_name r ≠ ""
  ∧ r_status r ∈ ["Started"; "completed"; "inprogress"; "skipped"]
  ∧ r_user_id r ∈ u_id <$> users db.

(** Every row has a "Started" row of the same user and name at or before
    it. *)
Definition started_before (rows : list habit_row) : Prop :=
  ∀ l1 r l2, rows = l1 ++ r :: l2 →
    ∃ r', r' ∈ l1 ++ [r]
          ∧ r_user_id r' = r_user_id r ∧ r_name r' = r_name r
          ∧ r_status r' = "Started".

Definition store_ok (db : database) : Prop :=
  NoDup (u_username <$> users db)
  ∧ NoDup (u_id <$> users db)
  ∧ NoDup (r_id <$> habits db)
  ∧ (∀ u, u ∈ users db → u_username u ≠ "" ∧ u_password u ≠ "")
  ∧ (∀ r, r ∈ habits db → row_ok db r)
  ∧ started_before (habits db).

(** * Properties *)

(** ** The order of [sort_values] *)

Section SortValues.

#[global] Instance dt_le_total : Total dt_le.
Proof. intros [x|] [y|]; simpl; auto; lia. Qed.

#[global] Instance dt_le_trans : Transitive dt_le.
Proof. intros [x|] [y|] [z|]; simpl; auto; try lia; tauto. Qed.

#[global] Instance dt_le_antisymm : AntiSymm (=) dt_le.
Proof. intros [x|] [y|]; simpl; try tauto. intros. f_equal. lia. Qed.

Lemma sort_values_Sorted (l : list datetime64) : Sorted dt_le (sort_values l).
Proof. apply Sorted_merge_sort, _. Qed.

Lemma sort_values_Permutation (l : list datetime64) : sort_values l ≡ₚ l.
Proof. apply merge_sort_Permutation. Qed.

(** A column that is already in order is the one [sort_values] returns,
    whatever the order of the rows it came from. *)
Lemma sort_values_unique (l k : list datetime64) :
  Sorted dt_le k → l ≡ₚ k → sort_values l = k.
Proof.
  intros Hk Hp. apply (Sorted_unique dt_le); auto using sort_values_Sorted.
  by rewrite sort_values_Permutation.
Qed.

(** Two neighbours of a sorted column of timestamps are in order. *)
Lemma Sorted_neighbours (l r : list datetime64) (p q : Z) :
  Sorted dt_le (l ++ Timestamp p :: Timestamp q :: r) → p <= q.
Proof.
  induction l as [|a l IH]; simpl; intros Hs.
  - apply Sorted_inv in Hs as [_ Hhd]. by apply HdRel_inv in Hhd.
  - apply Sorted_inv in Hs as [Hs _]. auto.
Qed.

End SortValues.

(** ** The dictionary [calculate_streaks] returns *)

Section StreakDict.

Lemma elem_of_unique (l : list string) (x : string) : x ∈ unique l ↔ x ∈ l.
Proof.
  induction l as [|a l IH]; simpl; [done|].
  rewrite !elem_of_cons, list_elem_of_filter, IH.
  destruct (decide (x = a)); tauto.
Qed.

Lemma NoDup_unique (l : list string) : NoDup (unique l).
Proof.
  induction l as [|a l IH]; simpl; constructor.
  - rewrite list_elem_of_filter. tauto.
  - by apply NoDup_filter.
Qed.

Lemma foldl_insert_lookup (f : string → Z) (names : list string)
    (m : gmap string Z) (k : string) :
  foldl (λ streaks habit, <[habit := f habit]> streaks) m names !! k
  = if decide (k ∈ names) then Some (f k) else m !! k.
Proof.
  revert m. induction names as [|a names IH]; intros m.
  - case_decide as Hin; [by apply elem_of_nil in Hin|done].
  - cbn [foldl]. rewrite IH.
    destruct (decide (k ∈ names)) as [Hin|Hin],
             (decide (k ∈ a :: names)) as [Hin'|Hin']; try done.
    + exfalso. apply Hin'. by right.
    + apply elem_of_cons in Hin' as [->|?]; [apply lookup_insert_eq|done].
    + rewrite lookup_insert_ne; [done|]. intros ->. apply Hin'. by left.
Qed.

(** A habit that has a date in the frame is one of its names. *)
Lemma dates_of_name (habit_data : list habit_entry) (habit : string)
    (date : datetime64) :
  date ∈ dates_of habit habit_data → habit ∈ h_name <$> habit_data.
Proof.
  unfold dates_of. intros Hin.
  apply list_elem_of_fmap in Hin as (e & _ & He).
  apply list_elem_of_filter in He as [<- He].
  by apply list_elem_of_fmap_2.
Qed.

(** Every habit name of the frame is a key, mapped to the longest
    streak of that habit; no other key is present. *)
Lemma calculate_streaks_lookup (habit_data : list habit_entry) (habit : string) :
  calculate_streaks habit_data !! habit
  = if decide (habit ∈ h_name <$> habit_data)
    then Some (longest_streak habit habit_data)
    else None.
Proof.
  unfold calculate_streaks. rewrite foldl_insert_lookup, lookup_empty.
  repeat case_decide; try done; exfalso; by rewrite elem_of_unique in *.
Qed.

End StreakDict.

(** ** The streak loop *)

Section StreakLoop.

Lemma streak_loop_snoc (dates : list datetime64) (date : datetime64) :
  streak_loop (dates ++ [date]) = streak_step (streak_loop dates) date.
Proof. unfold streak_loop. by rewrite foldl_snoc. Qed.

Lemma streak_loop_prev (dates : list datetime64) (date : datetime64) :
  prev_date (streak_loop (dates ++ [date])) = Some date.
Proof. by rewrite streak_loop_snoc. Qed.

(** The test of the loop on two timestamps: the second is at least one
    and less than two whole days after the first. *)
Lemma continues_Timestamp (p q : Z) :
  continues (Some (Timestamp p)) (Timestamp q) = ((q - p) / US_PER_DAY =? 1).
Proof. reflexivity. Qed.

(** A missing date never continues a streak, and nothing continues
    after one. *)
Lemma continues_NaT_r (prev : option datetime64) : continues prev NaT = false.
Proof. by destruct prev as [[?|]|]. Qed.

Lemma continues_NaT_l (date : datetime64) : continues (Some NaT) date = false.
Proof. by destruct date. Qed.

(** Two timestamps of one calendar day, in order, are less than a whole
    day apart. *)
Lemma same_date_days (p q : Z) :
  p <= q → to_date p = to_date q → (q - p) / US_PER_DAY = 0.
Proof.
  unfold to_date. intros Hle Hd. apply Z.div_small.
  pose proof (Z.div_mod p US_PER_DAY) as Hp.
  pose proof (Z.div_mod q US_PER_DAY) as Hq.
  pose proof (Z.mod_pos_bound p US_PER_DAY) as Hpm.
  pose proof (Z.mod_pos_bound q US_PER_DAY) as Hqm.
  rewrite Hd in Hp. revert Hp Hq Hpm Hqm.
  generalize (q / US_PER_DAY), (p mod US_PER_DAY), (q mod US_PER_DAY).
  unfold US_PER_DAY, US_PER_SECOND. lia.
Qed.

(** [d.days == 1] says that [d] is at least one and less than two
    days long. *)
Lemma days_one_bounds (d : Z) :
  d / US_PER_DAY = 1 ↔ US_PER_DAY <= d < 2 * US_PER_DAY.
Proof.
  unfold US_PER_DAY, US_PER_SECOND.
  change (86400 * 1000000) with 86400000000.
  split; intros H.
  - Z.div_mod_to_equations. lia.
  - symmetry. apply (Z.div_unique d 86400000000 1 (d - 86400000000)); lia.
Qed.

(** On the calendar day after [p], a timestamp [t] passes the test of
    the loop exactly when its time of day is not earlier than that of
    [p]. *)
Lemma next_date_days (p t : Z) :
  to_date t = to_date p + 1 →
  (t - p) / US_PER_DAY = 1 ↔ p mod US_PER_DAY <= t mod US_PER_DAY.
Proof.
  unfold to_date. intros Hd. rewrite days_one_bounds.
  pose proof (Z.div_mod p US_PER_DAY) as Hp.
  pose proof (Z.div_mod t US_PER_DAY) as Ht.
  pose proof (Z.mod_pos_bound p US_PER_DAY) as Hpm.
  pose proof (Z.mod_pos_bound t US_PER_DAY) as Htm.
  rewrite Hd in Ht. revert Hp Ht Hpm Htm.
  generalize (p / US_PER_DAY), (p mod US_PER_DAY), (t mod US_PER_DAY).
  unfold US_PER_DAY, US_PER_SECOND. lia.
Qed.

Lemma streak_step_reset (st : streak_state) (date : datetime64) :
  continues (prev_date st) date = false →
  current_streak (streak_step st date) = 1.
Proof. unfold streak_step. simpl. by intros ->. Qed.

Lemma streak_step_continue (st : streak_state) (date : datetime64) :
  continues (prev_date st) date = true →
  current_streak (streak_step st date) = current_streak st + 1.
Proof. unfold streak_step. simpl. by intros ->. Qed.

Lemma streak_step_max (st : streak_state) (date : datetime64) :
  max_streak (streak_step st date)
  = Z.max (max_streak st) (current_streak (streak_step st date)).
Proof. reflexivity. Qed.

Lemma whole_days_Sorted (p : Z) (ts : list Z) :
  whole_days p ts → Sorted dt_le (Timestamp <$> p :: ts).
Proof.
  revert p. induction ts as [|t ts IH]; intros p; simpl.
  - repeat constructor.
  - intros [Hd Hts]. constructor; [by apply IH|].
    constructor. simpl. apply days_one_bounds in Hd.
    revert Hd. unfold US_PER_DAY, US_PER_SECOND. lia.
Qed.

Lemma foldl_streak_run (st : streak_state) (p : Z) (ts : list Z) :
  prev_date st = Some (Timestamp p) →
  max_streak st = current_streak st →
  0 <= current_streak st →
  whole_days p ts →
  let st' := foldl streak_step st (Timestamp <$> ts) in
  current_streak st' = current_streak st + Z.of_nat (length ts)
  ∧ max_streak st' = current_streak st'.
Proof.
  revert st p. induction ts as [|t ts IH]; intros st p Hprev Hmax Hpos.
  - intros _. simpl. lia.
  - intros [Hd Hts].
    assert (Hc : continues (prev_date st) (Timestamp t) = true).
    { rewrite Hprev, continues_Timestamp. by apply Z.eqb_eq. }
    pose proof (streak_step_continue st _ Hc) as Hcur.
    pose proof (streak_step_max st (Timestamp t)) as Hm.
    destruct (IH (streak_step st (Timestamp t)) t) as [H1 H2];
      [done|lia|lia|done|].
    cbn zeta in *. rewrite fmap_cons. cbn [foldl].
    rewrite length_cons, Nat2Z.inj_succ. lia.
Qed.

(** On a column whose timestamps are whole days apart, the loop counts
    every row. *)
Lemma streak_loop_whole_days (p : Z) (ts : list Z) :
  whole_days p ts →
  max_streak (streak_loop (Timestamp <$> p :: ts)) = Z.of_nat (length (p :: ts)).
Proof.
  intros Hts. unfold streak_loop.
  change (Timestamp <$> p :: ts) with (Timestamp p :: (Timestamp <$> ts)).
  cbn [foldl].
  destruct (foldl_streak_run (streak_step streak_init (Timestamp p)) p ts)
    as [H1 H2]; [done|done|done|done|].
  cbn zeta in H1, H2. rewrite H2, H1. simpl length.
  change (current_streak (streak_step streak_init (Timestamp p))) with 1. lia.
Qed.

(** The same, for the frame: the rows of the habit may come in any
    order. *)
Lemma calculate_streaks_whole_days (habit_data : list habit_entry)
    (habit : string) (p : Z) (ts : list Z) :
  dates_of habit habit_data ≡ₚ Timestamp <$> p :: ts →
  whole_days p ts →
  calculate_streaks habit_data !! habit = Some (Z.of_nat (length (p :: ts))).
Proof.
  intros Hp Hts. rewrite calculate_streaks_lookup.
  rewrite decide_True.
  - unfold longest_streak.
    rewrite (sort_values_unique _ (Timestamp <$> p :: ts)).
    + f_equal. by apply streak_loop_whole_days.
    + by apply whole_days_Sorted.
    + done.
  - apply (dates_of_name _ _ (Timestamp p)). rewrite Hp. left.
Qed.

(** A habit with a single row has a streak of one, whatever its date. *)
Lemma calculate_streaks_single (habit_data : list habit_entry)
    (habit : string) (date : datetime64) :
  dates_of habit habit_data = [date] →
  calculate_streaks habit_data !! habit = Some 1.
Proof.
  intros Hd. rewrite calculate_streaks_lookup, decide_True.
  - unfold longest_streak. rewrite Hd. reflexivity.
  - apply (dates_of_name _ _ date). rewrite Hd. left.
Qed.

End StreakLoop.

(** ** Streaks and the time of day *)

Section StreakClaims.

Import Samples.

(** Wherever two neighbours of the sorted column are not exactly one
    whole day apart, the current streak starts again at 1. *)
Lemma streak_loop_reset (l : list datetime64) (p q : Z) :
  (q - p) / US_PER_DAY ≠ 1 →
  current_streak (streak_loop (l ++ [Timestamp p; Timestamp q])) = 1.
Proof.
  intros Hd.
  change (l ++ [Timestamp p; Timestamp q])
    with (l ++ [Timestamp p] ++ [Timestamp q]).
  rewrite app_assoc, streak_loop_snoc. apply streak_step_reset.
  rewrite streak_loop_prev, continues_Timestamp. by apply Z.eqb_neq.
Qed.

(** Two entries on consecutive calendar days, the second at an earlier
    time of day than the first, count as a streak of 1. *)
Lemma calculate_streaks_earlier_next_day (habit_data : list habit_entry)
    (habit : string) (p t : Z) :
  dates_of habit habit_data ≡ₚ [Timestamp p; Timestamp t] →
  to_date t = to_date p + 1 →
  t mod US_PER_DAY < p mod US_PER_DAY →
  calculate_streaks habit_data !! habit = Some 1.
Proof.
  intros Hperm Hd Hclock.
  assert (Hdays : (t - p) / US_PER_DAY ≠ 1).
  { rewrite (next_date_days p t Hd). lia. }
  assert (Hle : p <= t).
  { unfold to_date in Hd.
    pose proof (Z.div_le_mono t p US_PER_DAY eq_refl) as Hmono.
    destruct (decide (p <= t)); [done|]. lia. }
  rewrite calculate_streaks_lookup, decide_True.
  - unfold longest_streak.
    rewrite (sort_values_unique _ [Timestamp p; Timestamp t]).
    + unfold streak_loop. cbn [foldl]. rewrite streak_step_max.
      change [Timestamp p; Timestamp t] with ([] ++ [Timestamp p; Timestamp t]).
      pose proof (streak_loop_reset [] p t Hdays) as Hcur.
      unfold streak_loop in Hcur. cbn [foldl app] in Hcur. rewrite Hcur.
      reflexivity.
    + repeat constructor. exact Hle.
    + done.
  - apply (dates_of_name _ _ (Timestamp p)). rewrite Hperm. left.
Qed.

(** C1. A habit entered on two consecutive calendar days, late on the
    first and early on the second, gets a streak of 1 and not of 2:
    the loop measures the time between two entries in whole days and
    does not reduce the timestamps to their calendar day. *)
Theorem calculate_streaks_late_then_early :
  ∃ t1 t2 : Z,
    h_date <$> load late_then_early = [Timestamp t1; Timestamp t2]
    ∧ h_name <$> load late_then_early = ["Read"; "Read"]
    ∧ calendar_days t1 [t2]
    ∧ calculate_streaks (load late_then_early) !! "Read" = Some 1.
Proof.
  eexists _, _. split; [vm_compute; reflexivity|].
  repeat split; vm_compute; reflexivity.
Qed.

(** C2. Three consecutive calendar days, one day without an entry and
    two more consecutive days give a longest streak of 5 when the
    entries around the gap are less than two whole days apart: the
    streak is carried across the gap. *)
Theorem calculate_streaks_three_gap_two :
  ∃ t1 t2 t3 t5 t6 : Z,
    h_date <$> load three_gap_two
    = Timestamp <$> [t1; t2; t3; t5; t6]
    ∧ calendar_days t1 [t2; t3]
    ∧ to_date t5 = to_date t3 + 2
    ∧ calendar_days t5 [t6]
    ∧ calculate_streaks (load three_gap_two) !! "Read" = Some 5.
Proof.
  eexists _, _, _, _, _. split; [vm_compute; reflexivity|].
  repeat split; vm_compute; reflexivity.
Qed.

(** With every entry made at the same time of day the same five days
    give 3. *)
Lemma calculate_streaks_three_gap_two_noon :
  calculate_streaks (load three_gap_two_noon) !! "Read" = Some 3.
Proof. vm_compute. reflexivity. Qed.

(** Two timestamps three or more calendar days apart, or two calendar
    days apart with the later one not at an earlier time of day, are at
    least two whole days apart. *)
Lemma far_date_days (p q : Z) :
  to_date p + 3 <= to_date q
  ∨ (to_date q = to_date p + 2 ∧ p mod US_PER_DAY <= q mod US_PER_DAY) →
  2 <= (q - p) / US_PER_DAY.
Proof.
  unfold to_date. intros Hfar. apply Z.div_le_lower_bound; [done|].
  pose proof (Z.div_mod p US_PER_DAY) as Hp.
  pose proof (Z.div_mod q US_PER_DAY) as Hq.
  pose proof (Z.mod_pos_bound p US_PER_DAY) as Hpm.
  pose proof (Z.mod_pos_bound q US_PER_DAY) as Hqm.
  revert Hfar Hp Hq Hpm Hqm.
  generalize (p / US_PER_DAY), (q / US_PER_DAY),
    (p mod US_PER_DAY), (q mod US_PER_DAY).
  unfold US_PER_DAY, US_PER_SECOND. lia.
Qed.

(** C10 (amended). When two neighbours of a habit's sorted dates fall on
    the same calendar day, or three or more calendar days apart, or two
    calendar days apart with the later one not at an earlier time of
    day, the current streak is 1 after the second of them; and an extra
    entry on a day that already has one can lower the longest streak
    (here from 3 to 2). *)
Theorem calculate_streaks_same_day_resets :
  (∀ (habit : string) (habit_data : list habit_entry)
     (l r : list datetime64) (p q : Z),
      sort_values (dates_of habit habit_data)
      = l ++ Timestamp p :: Timestamp q :: r →
      to_date p = to_date q
      ∨ to_date p + 3 <= to_date q
      ∨ (to_date q = to_date p + 2
         ∧ p mod US_PER_DAY <= q mod US_PER_DAY) →
      current_streak (streak_loop (l ++ [Timestamp p; Timestamp q])) = 1)
  ∧ (∃ (db : database) (now : pydatetime) (e : habit_entry),
      load (log "completed" now db) = load db ++ [e]
      ∧ (∃ e', e' ∈ load db ∧ h_name e' = h_name e
               ∧ is_Some (dt_date (h_date e))
               ∧ dt_date (h_date e') = dt_date (h_date e))
      ∧ calculate_streaks (load db) !! "Read" = Some 3
      ∧ calculate_streaks (load (log "completed" now db)) !! "Read" = Some 2).
Proof.
  split.
  - intros habit habit_data l r p q Hs Hd. apply streak_loop_reset.
    destruct Hd as [Hd|Hd].
    + rewrite same_date_days; [done| |done].
      apply (Sorted_neighbours l r). rewrite <- Hs. apply sort_values_Sorted.
    + apply far_date_days in Hd. lia.
  - exists three_days, (march 2 18). eexists. split; [vm_compute; reflexivity|].
    split.
    + exists (mk_entry 2 1 "Read" (Timestamp 1709380800000000) "completed" None).
      split; [vm_compute; right; left|].
      repeat split; vm_compute; eauto.
    + split; vm_compute; reflexivity.
Qed.

Lemma calculate_streaks_same_day_resets_witness :
  current_streak
    (streak_loop ([Timestamp 0] ++ [Timestamp US_PER_DAY; Timestamp (US_PER_DAY + 1)]))
  = 1.
Proof.
  apply (proj1 calculate_streaks_same_day_resets "Read"
           [mk_entry 1 1 "Read" (Timestamp (US_PER_DAY + 1)) "completed" None;
            mk_entry 2 1 "Read" (Timestamp 0) "Started" None;
            mk_entry 3 1 "Read" (Timestamp US_PER_DAY) "completed" None]
           [Timestamp 0] [] US_PER_DAY (US_PER_DAY + 1)).
  - vm_compute. reflexivity.
  - left. vm_compute. reflexivity.
Defined.

(** C10, as stated: two neighbours that are two calendar days apart, and
    so not exactly one day apart, do not set the current streak back
    when less than 48 hours lie between them (here 3 March 23:00 and
    5 March 01:00, after which the current streak is 4). *)
Lemma calculate_streaks_not_one_day_apart_fails :
  ¬ (∀ (habit : string) (habit_data : list habit_entry)
       (l r : list datetime64) (p q : Z),
        sort_values (dates_of habit habit_data)
        = l ++ Timestamp p :: Timestamp q :: r →
        to_date q ≠ to_date p + 1 →
        current_streak (streak_loop (l ++ [Timestamp p; Timestamp q])) = 1).
Proof.
  intros Hreset.
  specialize (Hreset "Read" (load three_gap_two)
                [Timestamp 1709251200000000; Timestamp 1709337600000000]
                [Timestamp 1709686800000000]
                1709506800000000 1709600400000000
                ltac:(vm_compute; reflexivity)
                ltac:(vm_compute; discriminate)).
  vm_compute in Hreset. discriminate.
Qed.

End StreakClaims.

(** ** Loading, adding and logging *)

Section HabitClaims.

Variable adapt_datetime : pydatetime → string.
Variable to_datetime : string → string → datetime64.

Lemma select_habits_insert (user_id user_id' : Z) (name date status : string)
    (notes : option string) (db : database) :
  select_habits user_id (insert_habit user_id' name date status notes db)
  = select_habits user_id db
    ++ (if decide (user_id' = user_id)
        then [mk_row (next_rowid (habits_seq db) (r_id <$> habits db))
                     user_id' name date status notes]
        else []).
Proof.
  unfold select_habits, insert_habit. cbn [habits].
  rewrite filter_app, filter_cons, filter_nil. cbn [r_user_id].
  by destruct (decide (user_id' = user_id)).
Qed.

Lemma load_user_habits_insert (user_id : Z) (name date status : string)
    (notes : option string) (db : database) :
  load_user_habits to_datetime user_id
    (insert_habit user_id name date status notes db)
  = load_user_habits to_datetime user_id db
    ++ [mk_entry (next_rowid (habits_seq db) (r_id <$> habits db))
                 user_id name
                 (to_datetime (first_date user_id date db) date)
                 status notes].
Proof.
  unfold load_user_habits, first_date.
  rewrite select_habits_insert, decide_True by done.
  destruct (select_habits user_id db) as [|first rows]; [done|].
  rewrite <- app_comm_cons, !fmap_cons, fmap_app. done.
Qed.

Lemma load_user_habits_fmap (user_id : Z) (db : database) :
  load_user_habits to_datetime user_id db
  = entry_of_row (to_datetime (first_date user_id "" db))
    <$> select_habits user_id db.
Proof.
  unfold load_user_habits, first_date.
  by destruct (select_habits user_id db).
Qed.


(** C6. For a user without rows on the table, [add_habit] followed by
    [load_user_habits] gives exactly one entry, with the given name, the
    status "Started" and the given notes, whatever rows other users
    have. *)
Theorem add_habit_then_load (user_id : Z) (habit_name notes : string)
    (now : pydatetime) (db : database) :
  (∀ r, r ∈ habits db → r_user_id r ≠ user_id) →
  ∃ e, load_user_habits to_datetime user_id
         (add_habit adapt_datetime user_id habit_name notes now db) = [e]
       ∧ h_name e = habit_name
       ∧ h_status e = "Started"
       ∧ h_notes e = Some notes.
Proof.
  intros Hnone. unfold add_habit. rewrite load_user_habits_insert.
  assert (Hnil : select_habits user_id db = []).
  { unfold select_habits.
    destruct (filter _ (habits db)) as [|r l] eqn:Hf; [done|]. exfalso.
    assert (Hr : r ∈ filter (λ r, r_user_id r = user_id) (habits db))
      by (rewrite Hf; left).
    apply list_elem_of_filter in Hr as [Hu Hr]. by apply (Hnone r). }
  unfold load_user_habits at 1. rewrite Hnil. eexists. by split.
Qed.

(** C9. [log_habit_progress] appends exactly one row, with the given
    name and status and without notes, whatever the name; the user's
    frame afterwards is the frame before followed by that entry, and
    the frames of other users and the table of users are as before. *)
Theorem log_habit_progress_appends (user_id : Z) (habit_name status : string)
    (now : pydatetime) (db : database) :
  let db' := log_habit_progress adapt_datetime user_id habit_name status now db in
  ∃ (r : habit_row) (e : habit_entry),
    habits db' = habits db ++ [r]
    ∧ r_user_id r = user_id ∧ r_name r = habit_name
    ∧ r_status r = status ∧ r_notes r = None
    ∧ users db' = users db
    ∧ load_user_habits to_datetime user_id db'
      = load_user_habits to_datetime user_id db ++ [e]
    ∧ h_name e = habit_name ∧ h_status e = status ∧ h_notes e = None
    ∧ (∀ other, other ≠ user_id →
         load_user_habits to_datetime other db'
         = load_user_habits to_datetime other db).
Proof.
  intros db'. unfold db', log_habit_progress. eexists _, _.
  split; [reflexivity|]. repeat split.
  - apply load_user_habits_insert.
  - done.
  - done.
  - done.
  - intros other Hne. unfold load_user_habits.
    rewrite select_habits_insert, decide_False by done.
    by rewrite app_nil_r.
Qed.

End HabitClaims.


(** A date the program wrote itself is lost the same way when its layout
    is not that of the first row: the entry stays, without its date. *)
Lemma load_user_habits_mixed_layouts :
  r_date <$> habits Samples.mixed_layouts
  = ["2024-03-01 08:00:00"; "2024-03-02 08:00:00.500000"]
  ∧ h_date <$> Samples.load Samples.mixed_layouts
    = [Timestamp 1709280000000000; NaT].
Proof. split; vm_compute; reflexivity. Qed.

Lemma add_habit_then_load_witness :
  ∃ e, load_user_habits Iso.to_datetime_iso 1
         (add_habit Iso.isoformat_space 1 "Read" "daily"
            (Samples.march 1 8) Samples.other_user) = [e]
       ∧ h_name e = "Read" ∧ h_status e = "Started" ∧ h_notes e = Some "daily".
Proof.
  apply (add_habit_then_load Iso.isoformat_space Iso.to_datetime_iso
           1 "Read" "daily" (Samples.march 1 8) Samples.other_user).
  intros r Hr. vm_compute in Hr. apply list_elem_of_singleton in Hr.
  subst r. discriminate.
Defined.

(** ** Registration and login *)

Section Authentication.

Lemma register_user_taken (username password : string) (db : database) :
  username ∈ u_username <$> users db →
  register_user username password db = (false, [duplicate_message], db).
Proof.
  intros Hin. unfold register_user, insert_user. by rewrite decide_True.
Qed.

Lemma register_user_free (username password : string) (db : database) :
  username ∉ u_username <$> users db →
  ∃ new_id,
    register_user username password db
    = (true, [],
       {| users := users db ++ [mk_user new_id username password];
          users_seq := new_id;
          habits := habits db;
          habits_seq := habits_seq db |}).
Proof.
  intros Hin. unfold register_user, insert_user. rewrite decide_False by done.
  by eexists.
Qed.

Lemma register_user_true (username password : string) (db db1 : database)
    (msgs : list string) :
  register_user username password db = (true, msgs, db1) →
  (username ∉ (u_username <$> users db))
  ∧ (∃ new_id, users db1 = users db ++ [mk_user new_id username password]).
Proof.
  intros Hreg. destruct (decide (username ∈ u_username <$> users db)) as [Hin|Hin].
  - by rewrite register_user_taken in Hreg.
  - split; [done|].
    destruct (register_user_free username password db Hin) as [new_id Heq].
    rewrite Heq in Hreg. inversion Hreg. by exists new_id.
Qed.

Lemma login_user_Some (username password : string) (db : database)
    (u : user_row) :
  login_user username password db = Some u →
  u ∈ users db ∧ u_username u = username ∧ u_password u = password.
Proof.
  unfold login_user, select_user. intros Hh.
  apply head_Some_elem_of, list_elem_of_filter in Hh. tauto.
Qed.

Lemma login_user_is_Some (username password : string) (db : database) :
  is_Some (login_user username password db)
  ↔ ∃ u, u ∈ users db ∧ u_username u = username ∧ u_password u = password.
Proof.
  split.
  - intros [u Hu]. exists u. by apply login_user_Some.
  - intros (u & Hin & Hn & Hp). unfold login_user. apply head_is_Some.
    intros Hnil. unfold select_user in Hnil.
    exact (filter_nil_not_elem_of _ _ u Hnil (conj Hn Hp) Hin).
Qed.

(** C7. [register_user] fails with the duplicate-username error when
    the name is taken, and leaves the database as it was; so after a
    successful registration a second one under the same name fails,
    the database keeps its state, the password stored for the name is
    the first one and the first credentials still log in. *)
Theorem register_user_duplicate (username password password2 : string)
    (db : database) :
  (username ∈ u_username <$> users db →
   register_user username password2 db = (false, [duplicate_message], db))
  ∧ (∀ (msgs : list string) (db1 : database),
      register_user username password db = (true, msgs, db1) →
      register_user username password2 db1 = (false, [duplicate_message], db1)
      ∧ (∀ u, u ∈ users db1 → u_username u = username →
              u_password u = password)
      ∧ is_Some (login_user username password db1)).
Proof.
  split; [apply register_user_taken|].
  intros msgs db1 Hreg.
  apply register_user_true in Hreg as (Hfree & new_id & Husers).
  assert (Hnew : mk_user new_id username password ∈ users db1).
  { rewrite Husers. set_solver. }
  split; [|split].
  - apply register_user_taken.
    by apply (list_elem_of_fmap_2' _ _ (mk_user new_id username password)).
  - intros u Hu Hname. rewrite Husers in Hu.
    apply elem_of_app in Hu as [Hu|Hu].
    + exfalso. by apply Hfree, (list_elem_of_fmap_2' _ _ u).
    + apply list_elem_of_singleton in Hu. by subst u.
  - apply login_user_is_Some. by eexists.
Qed.

(** C8. [login_user] returns a user row exactly when some stored row
    has both the given name and the given password, and the row it
    returns is such a row; with a password that no row of that name
    has, it returns nothing. *)
Theorem login_user_exact (username password : string) (db : database) :
  (is_Some (login_user username password db)
   ↔ ∃ u, u ∈ users db ∧ u_username u = username ∧ u_password u = password)
  ∧ (∀ u, login_user username password db = Some u →
          u ∈ users db ∧ u_username u = username ∧ u_password u = password)
  ∧ ((∀ u, u ∈ users db → u_username u = username → u_password u ≠ password) →
     login_user username password db = None).
Proof.
  split; [apply login_user_is_Some|]. split; [apply login_user_Some|].
  intros Hwrong. apply eq_None_not_Some. rewrite login_user_is_Some.
  intros (u & Hin & Hn & Hp). by apply (Hwrong u).
Qed.

End Authentication.

(** The session of the specification: "alice" registers with "pw", a
    second registration with "pw2" fails, "pw" stays, "wrong" is refused. *)
Lemma register_user_duplicate_witness :
  ∃ db1,
    fst (register_user "alice" "pw" create_tables) = (true, [])
    ∧ snd (register_user "alice" "pw" create_tables) = db1
    ∧ register_user "alice" "pw2" db1 = (false, [duplicate_message], db1)
    ∧ u_password <$> users db1 = ["pw"].
Proof.
  eexists. split; [reflexivity|]. split; [reflexivity|]. split.
  - apply (proj2 (register_user_duplicate "alice" "pw" "pw2" create_tables) []).
    reflexivity.
  - reflexivity.
Defined.

Lemma login_user_exact_witness :
  login_user "alice" "wrong" (snd (register_user "alice" "pw" create_tables))
  = None.
Proof.
  apply (proj2 (proj2 (login_user_exact "alice" "wrong"
                         (snd (register_user "alice" "pw" create_tables))))).
  intros u Hu _. vm_compute in Hu.
  apply list_elem_of_singleton in Hu. by subst u.
Defined.

(** ** The selection and the success rate *)

Section Visualisation.

Lemma filtered_data_mask (selected_habit : string) (start_date end_date : Z)
    (e : habit_entry) :
  bool_decide (h_name e = selected_habit)
  && date_ge (h_date e) start_date && date_le (h_date e) end_date
  ↔ kept selected_habit start_date end_date e.
Proof.
  unfold kept, in_range, date_ge, date_le.
  rewrite !andb_True, bool_decide_spec.
  destruct (h_date e) as [t|]; simpl.
  - rewrite !Is_true_true, Z.leb_le, Z.leb_le. tauto.
  - tauto.
Qed.

(** C5. [filtered_data] is the frame restricted to the entries of the
    selected habit whose date lies between the two dates, both
    included: the same entries, as often and in the same order. An
    entry on either end of the range is kept; an entry of another
    name, before the start, after the end or without a date is not. *)
Theorem filtered_data_exact (habits_data : list habit_entry)
    (selected_habit : string) (start_date end_date : Z) :
  filtered_data habits_data selected_habit start_date end_date
  = filter (kept selected_habit start_date end_date) habits_data
  ∧ (∀ e, e ∈ filtered_data habits_data selected_habit start_date end_date
          ↔ e ∈ habits_data ∧ h_name e = selected_habit
            ∧ ∃ t, h_date e = Timestamp t
                   ∧ start_date <= to_date t <= end_date)
  ∧ (∀ e t, e ∈ habits_data → h_name e = selected_habit →
            h_date e = Timestamp t → start_date <= end_date →
            to_date t = start_date ∨ to_date t = end_date →
            e ∈ filtered_data habits_data selected_habit start_date end_date)
  ∧ (∀ e, h_name e ≠ selected_habit
          ∨ h_date e = NaT
          ∨ (∃ t, h_date e = Timestamp t
                  ∧ (to_date t < start_date ∨ end_date < to_date t)) →
          e ∉ filtered_data habits_data selected_habit start_date end_date).
Proof.
  assert (Hmem : ∀ e,
    e ∈ filtered_data habits_data selected_habit start_date end_date
    ↔ e ∈ habits_data ∧ h_name e = selected_habit
      ∧ ∃ t, h_date e = Timestamp t ∧ start_date <= to_date t <= end_date).
  { intros e. unfold filtered_data.
    rewrite list_elem_of_filter, filtered_data_mask. unfold kept, in_range.
    destruct (h_date e) as [t|]; split.
    - intros [[Hn Hr] Hin]. eauto.
    - intros (Hin & Hn & t' & [= <-] & Hr). auto.
    - intros [[_ []] _].
    - intros (_ & _ & t' & [=] & _). }
  split; [|split; [exact Hmem|split]].
  - unfold filtered_data. apply list_filter_iff, filtered_data_mask.
  - intros e t Hin Hn Hd Hle Hb. apply Hmem. split; [done|]. split; [done|].
    exists t. split; [done|]. lia.
  - intros e Hout Hin. apply Hmem in Hin as (_ & Hn & t & Hd & Hr).
    destruct Hout as [Hne|[Hnat|(t' & Hd' & Hlt)]].
    + done.
    + congruence.
    + rewrite Hd in Hd'. injection Hd' as <-. lia.
Qed.

Lemma completed_le_total (data : list habit_entry) :
  0 <= completed_logs data <= total_logs data.
Proof.
  unfold completed_logs, total_logs.
  pose proof (length_filter (λ e, h_status e = "completed") data). lia.
Qed.

End Visualisation.

(** ** The success rate in binary64 *)

Section SuccessRate.

Lemma round_half_even_floor (x : Q) :
  (inject_Z (Qfloor x) <= x < inject_Z (Qfloor x) + 1)%Q.
Proof.
  split; [apply Qfloor_le|].
  pose proof (Qlt_floor x) as H. rewrite inject_Z_plus in H. exact H.
Qed.

Lemma round_half_even_near (x : Q) :
  (Qabs (inject_Z (round_half_even x) - x) <= 1 # 2)%Q.
Proof.
  unfold round_half_even.
  destruct (round_half_even_floor x) as [Hlo Hhi].
  apply Qabs_Qle_condition.
  destruct (x - inject_Z (Qfloor x) ?= 1 # 2)%Q eqn:Hc.
  - apply Qeq_alt in Hc.
    destruct (Z.even (Qfloor x));
      [|rewrite inject_Z_plus; change (inject_Z 1) with 1%Q]; lra.
  - apply Qlt_alt in Hc. lra.
  - apply Qgt_alt in Hc. rewrite inject_Z_plus.
    change (inject_Z 1) with 1%Q. lra.
Qed.

Lemma round_half_even_le (x : Q) (N : Z) :
  (x <= inject_Z N)%Q → round_half_even x <= N.
Proof.
  intros Hx. unfold round_half_even.
  destruct (round_half_even_floor x) as [Hlo Hhi].
  assert (Hf : Qfloor x <= N) by (rewrite Zle_Qle; lra).
  assert (Hstep : (inject_Z (Qfloor x) < x)%Q → Qfloor x + 1 <= N).
  { intros Hlt. assert (Qfloor x < N); [|lia]. rewrite Zlt_Qlt. lra. }
  destruct (x - inject_Z (Qfloor x) ?= 1 # 2)%Q eqn:Hc.
  - apply Qeq_alt in Hc. destruct (Z.even (Qfloor x)); [done|].
    apply Hstep. lra.
  - done.
  - apply Qgt_alt in Hc. apply Hstep. lra.
Qed.

Lemma round_half_even_nonneg (x : Q) : (0 <= x)%Q → 0 <= round_half_even x.
Proof.
  intros Hx. unfold round_half_even.
  assert (Hf : 0 <= Qfloor x).
  { change 0 with (Qfloor 0). by apply Qfloor_resp_le. }
  destruct (x - inject_Z (Qfloor x) ?= 1 # 2)%Q;
    [destruct (Z.even (Qfloor x))|..]; lia.
Qed.

Lemma exponent_le (x : Q) : (0 < x)%Q → (2 ^ exponent x <= x)%Q.
Proof.
  destruct x as [n d]. intros Hx.
  assert (Hn : 0 < n) by (revert Hx; unfold Qlt; simpl; lia).
  unfold exponent. cbn [Qnum Qden].
  destruct (Qle_bool _ _) eqn:Hb; [by apply Qle_bool_iff|]. clear Hb.
  pose proof (Z.log2_spec n Hn) as [Hlo _].
  pose proof (Z.log2_spec (Z.pos d) eq_refl) as [_ Hhi].
  pose proof (Z.log2_nonneg n) as Ha.
  pose proof (Z.log2_nonneg (Z.pos d)) as Hb.
  replace (Z.log2 n - Z.log2 (Z.pos d) - 1)
    with (Z.log2 n - Z.succ (Z.log2 (Z.pos d))) by lia.
  rewrite Qpower_minus by done.
  change 2%Q with (inject_Z 2). rewrite <- !Zpower_Qpower by lia.
  revert Hlo Hhi.
  generalize (2 ^ Z.log2 n), (2 ^ Z.succ (Z.log2 (Z.pos d))).
  intros A B HA HB. destruct B as [|b|b]; try lia.
  rewrite <- Qmake_Qdiv. unfold Qle. cbn [Qnum Qden]. nia.
Qed.

(** What rounding keeps: a value between 0 and an integer [B] below
    [2 ^ (E + 1)] rounds to a float between 0 and [B], and moves by at
    most half a unit in the last place of [2 ^ E]. *)
Lemma round64_upto (x : Q) (B E : Z) :
  (0 <= x <= inject_Z B)%Q → (inject_Z B < 2 ^ (E + 1))%Q →
  emin <= E <= 52 →
  ∃ y, round64 x = Some y
       ∧ (0 <= y <= inject_Z B)%Q
       ∧ (Qabs (y - x) <= 2 ^ (E - 53))%Q.
Proof.
  intros [Hx0 HxB] HB HE. unfold round64.
  destruct (Qeq_bool x 0) eqn:Hz.
  { apply Qeq_bool_iff in Hz. exists 0%Q. split; [done|]. split; [lra|].
    rewrite Hz. change (Qabs (0 - 0)) with 0%Q.
    apply Qlt_le_weak, Qpower_0_lt. done. }
  apply Qeq_bool_neq in Hz. assert (Hx : (0 < x)%Q) by lra.
  assert (Habs : Qabs x = x).
  { destruct x as [n d]. unfold Qabs. f_equal. apply Z.abs_eq.
    revert Hx0. unfold Qle. simpl. lia. }
  rewrite Habs. clear Habs.
  set (e := Z.max (exponent x) emin). set (s := 52 - e).
  assert (He : e <= E).
  { apply Z.max_lub; [|lia]. assert (exponent x < E + 1); [|lia].
    apply (Qpower_lt_compat_l_inv 2); [|done].
    pose proof (exponent_le x Hx). lra. }
  assert (Hs : 0 <= s) by (unfold s; lia).
  assert (Hp : (0 < 2 ^ s)%Q) by (by apply Qpower_0_lt).
  assert (Hinv : (2 ^ s * 2 ^ (- s) == 1)%Q).
  { rewrite <- Qpower_plus by done. by rewrite Z.add_opp_diag_r. }
  assert (Hp' : (0 < 2 ^ (- s))%Q) by (by apply Qpower_0_lt).
  set (m := round_half_even (x * 2 ^ s)).
  assert (Hm0 : 0 <= m).
  { apply round_half_even_nonneg. apply Qmult_le_0_compat; lra. }
  assert (HmB : m <= B * 2 ^ s).
  { apply round_half_even_le. rewrite inject_Z_mult, Zpower_Qpower by done.
    change (inject_Z 2) with 2%Q. apply Qmult_le_compat_r; lra. }
  pose proof (round_half_even_near (x * 2 ^ s)) as Hnear. fold m in Hnear.
  assert (Hy : (inject_Z m * 2 ^ (- s) <= inject_Z B)%Q).
  { rewrite Zle_Qle, inject_Z_mult, Zpower_Qpower in HmB by done.
    change (inject_Z 2) with 2%Q in HmB.
    apply (Qmult_le_compat_r _ _ (2 ^ (- s))) in HmB; [|lra].
    rewrite <- Qmult_assoc, Hinv, Qmult_1_r in HmB. exact HmB. }
  assert (Hpos : (0 <= inject_Z m * 2 ^ (- s))%Q).
  { apply Qmult_le_0_compat; [|lra].
    change 0%Q with (inject_Z 0). by rewrite <- Zle_Qle. }
  assert (Hlargest : (inject_Z B <= largest)%Q).
  { assert (H53 : (2 ^ (E + 1) <= 2 ^ 53)%Q)
      by (apply Qpower_le_compat_l; [lia|done]).
    assert (Hl : (2 ^ 53 <= largest)%Q) by (by vm_compute).
    lra. }
  rewrite (proj2 (Qle_bool_iff _ _)) by lra.
  rewrite (proj2 (Qle_bool_iff 0 x)) by lra.
  eexists. split; [done|]. split; [done|].
  assert (Heq : (inject_Z m * 2 ^ (- s) - x
                 == (inject_Z m - x * 2 ^ s) * 2 ^ (- s))%Q).
  { transitivity (inject_Z m * 2 ^ (- s) - x * (2 ^ s * 2 ^ (- s)))%Q;
      [rewrite Hinv|]; ring. }
  rewrite Heq, Qabs_Qmult, (Qabs_pos (2 ^ (- s))) by lra.
  assert (Hhalf : ((1 # 2) * 2 ^ (- s) == 2 ^ (e - 53))%Q).
  { replace (e - 53) with (- 1 + - s) by (unfold s; lia).
    by rewrite Qpower_plus. }
  assert (Hmono : (2 ^ (e - 53) <= 2 ^ (E - 53))%Q)
    by (apply Qpower_le_compat_l; [lia|done]).
  apply (Qmult_le_compat_r _ _ (2 ^ (- s))) in Hnear; lra.
Qed.

(** C4 (amended). The success rate is always defined (no division by
    zero is ever attempted) and lies between 0 and 100. It is 0 for the
    empty frame; otherwise it is the float nearest to 100 times the float
    nearest to completed over total, which is within [2 ^ (-45)] of the
    exact 100 * completed / total. Three entries of which the first two
    are completed and the third is skipped give (2/3)*100 as Python
    evaluates it, the float 66.66666666666666. *)
Theorem success_rate_rounded :
  (∀ data : list habit_entry,
     ∃ r : Q,
       success_rate_binary64 data = Some r
       ∧ (0 <= r <= 100)%Q
       ∧ (total_logs data = 0 → r = 0%Q)
       ∧ (total_logs data ≠ 0 →
          (∃ q, int_truediv (completed_logs data) (total_logs data) = Some q
                ∧ float_mul q 100 = Some r)
          ∧ (Qabs (r - 100 * inject_Z (completed_logs data)
                        / inject_Z (total_logs data))
             <= 2 ^ (- 45))%Q))
  ∧ success_rate_binary64 [] = Some 0%Q
  ∧ (∀ e1 e2 e3 : habit_entry,
       h_status e1 = "completed" → h_status e2 = "completed" →
       h_status e3 = "skipped" →
       success_rate_binary64 [e1; e2; e3]
       = (q ← int_truediv 2 3; float_mul q 100)
       ∧ ∃ r : Q, success_rate_binary64 [e1; e2; e3] = Some r
                  ∧ (r == 2345624805922133 # 35184372088832)%Q).
Proof.
  split; [|split].
  - intros data. unfold success_rate_binary64.
    destruct (total_logs data =? 0) eqn:Ht; cbn [negb].
    { apply Z.eqb_eq in Ht. exists 0%Q. split; [done|]. split; [lra|].
      split; done. }
    apply Z.eqb_neq in Ht. pose proof (completed_le_total data) as Hc.
    unfold int_truediv, float_mul. rewrite (proj2 (Z.eqb_neq _ _) Ht).
    set (c := completed_logs data) in *. set (t := total_logs data) in *.
    assert (Hx : (0 <= inject_Z c / inject_Z t <= inject_Z 1)%Q).
    { assert (Ht0 : (0 < inject_Z t)%Q)
        by (change 0%Q with (inject_Z 0); rewrite <- Zlt_Qlt; lia).
      split.
      - apply Qle_shift_div_l; [done|]. rewrite Qmult_0_l.
        change 0%Q with (inject_Z 0). rewrite <- Zle_Qle. lia.
      - apply Qle_shift_div_r; [done|]. rewrite Qmult_1_l.
        rewrite <- Zle_Qle. lia. }
    destruct (round64_upto _ 1 0 Hx) as (q & Hq1 & Hq & Hqe);
      [by vm_compute|by vm_compute|].
    rewrite Hq1. cbn [mbind option_bind].
    assert (Hx1 : (0 <= q * 100 <= inject_Z 100)%Q).
    { change (inject_Z 100) with 100%Q. change (inject_Z 1) with 1%Q in Hq.
      lra. }
    destruct (round64_upto _ 100 6 Hx1) as (r & Hr1 & Hr & Hre);
      [by vm_compute|by vm_compute|].
    rewrite Hr1. exists r. split; [done|]. change (inject_Z 100) with 100%Q in Hr.
    split; [done|]. split; [done|]. intros _. split; [by exists q|].
    assert (Heq : (100 * inject_Z c / inject_Z t
                   == 100 * (inject_Z c / inject_Z t))%Q)
      by (unfold Qdiv; ring).
    rewrite Heq. revert Hqe Hre.
    generalize (inject_Z c / inject_Z t)%Q. intros x.
    change (2 ^ (0 - 53))%Q with (1 # 9007199254740992)%Q.
    change (2 ^ (6 - 53))%Q with (1 # 140737488355328)%Q.
    change (2 ^ (- 45))%Q with (1 # 35184372088832)%Q.
    rewrite !Qabs_Qle_condition. lra.
  - reflexivity.
  - intros e1 e2 e3 H1 H2 H3.
    assert (Heq : success_rate_binary64 [e1; e2; e3]
                  = (q ← int_truediv 2 3; float_mul q 100)).
    { unfold success_rate_binary64, completed_logs, total_logs.
      rewrite !filter_cons, filter_nil, H1, H2, H3. reflexivity. }
    split; [exact Heq|]. rewrite Heq. eexists. split; [vm_compute; reflexivity|].
    reflexivity.
Qed.

(** On the two expressions of the example the model gives the value
    the processor computes. *)
Lemma success_rate_as_computed :
  (∃ r r', (q ← int_truediv 2 3; float_mul q 100) = Some r
           ∧ float_value (2 / 3 * 100)%float = Some r'
           ∧ (r == r')%Q)
  ∧ (∃ r r', int_truediv (100 * 2) 3 = Some r
             ∧ float_value (100 * 2 / 3)%float = Some r'
             ∧ (r == r')%Q).
Proof.
  split; eexists _, _; (split; [vm_compute; reflexivity|]);
    (split; [vm_compute; reflexivity|]); reflexivity.
Qed.

End SuccessRate.

(** C4, as stated: for two completed entries of three the success rate
    is not 100 * 2 / 3, neither the exact quotient nor the float Python
    gets for that expression (66.66666666666667); it is the float below
    it, 66.66666666666666. *)
Lemma success_rate_not_100_times_count_by_total :
  ∃ r r' : Q,
    success_rate_binary64 Samples.two_of_three = Some r
    ∧ int_truediv (100 * completed_logs Samples.two_of_three)
        (total_logs Samples.two_of_three) = Some r'
    ∧ (r == 2345624805922133 # 35184372088832)%Q
    ∧ (r' == 4691249611844267 # 70368744177664)%Q
    ∧ ¬ (r == r')%Q
    ∧ ¬ (r == 100 * inject_Z (completed_logs Samples.two_of_three)
              / inject_Z (total_logs Samples.two_of_three))%Q.
Proof.
  eexists _, _. split; [vm_compute; reflexivity|].
  split; [vm_compute; reflexivity|].
  split; [reflexivity|]. split; [reflexivity|]. split; by vm_compute.
Qed.

(** ** More on streaks *)

Section StreakFacts.

Lemma streak_loop_bounds (dates : list datetime64) :
  0 <= current_streak (streak_loop dates) <= max_streak (streak_loop dates)
  ∧ max_streak (streak_loop dates) <= Z.of_nat (length dates)
  ∧ (dates ≠ [] → 1 <= current_streak (streak_loop dates)).
Proof.
  induction dates as [|date dates IH] using rev_ind.
  - cbn. split; [lia|]. split; [lia|done].
  - rewrite streak_loop_snoc, length_app, Nat2Z.inj_add. cbn [length].
    destruct IH as (Hcur & Hmax & _). unfold streak_step. cbn.
    destruct (continues _ _); (split; [lia|]); (split; [lia|]); intros _; lia.
Qed.

Lemma sort_values_length (l : list datetime64) :
  length (sort_values l) = length l.
Proof. apply Permutation_length, sort_values_Permutation. Qed.

Lemma sort_values_perm_eq (l k : list datetime64) :
  l ≡ₚ k → sort_values l = sort_values k.
Proof.
  intros Hp. apply sort_values_unique; [apply sort_values_Sorted|].
  by rewrite sort_values_Permutation.
Qed.

(** A value that is not before any other goes to the end of the sorted
    column. *)
Lemma sort_values_snoc (l : list datetime64) (x : datetime64) :
  (∀ d, d ∈ l → dt_le d x) → sort_values (l ++ [x]) = sort_values l ++ [x].
Proof.
  intros Hmax. apply sort_values_unique.
  - apply StronglySorted_Sorted, (StronglySorted_app_2 dt_le).
    + intros d x' Hd Hx'. apply list_elem_of_singleton in Hx' as ->.
      apply Hmax. by rewrite <- (sort_values_Permutation l).
    + apply (Sorted_StronglySorted dt_le), sort_values_Sorted.
    + repeat constructor.
  - by rewrite sort_values_Permutation.
Qed.

Lemma dates_of_app (habit : string) (l k : list habit_entry) :
  dates_of habit (l ++ k) = dates_of habit l ++ dates_of habit k.
Proof. unfold dates_of. by rewrite filter_app, fmap_app. Qed.

Lemma dates_of_cons (habit : string) (e : habit_entry) (l : list habit_entry) :
  dates_of habit (e :: l)
  = if decide (h_name e = habit) then h_date e :: dates_of habit l
    else dates_of habit l.
Proof. unfold dates_of. rewrite filter_cons. by case_decide. Qed.

Lemma dates_of_nonempty (habit : string) (habit_data : list habit_entry) :
  habit ∈ h_name <$> habit_data → dates_of habit habit_data ≠ [].
Proof.
  intros (e & -> & He)%list_elem_of_fmap Hnil.
  assert (Hin : h_date e ∈ dates_of (h_name e) habit_data).
  { unfold dates_of. apply list_elem_of_fmap_2, list_elem_of_filter. done. }
  rewrite Hnil in Hin. by apply elem_of_nil in Hin.
Qed.

(** The number shown as "Longest Streak": [streaks.get(selected_habit, 0)]
    is 0 exactly for a name the frame does not have; for a name of the
    frame it is at least 1 and at most the number of entries of that
    name. *)
Theorem calculate_streaks_get (habit_data : list habit_entry) (habit : string) :
  (habit ∈ h_name <$> habit_data →
   ∃ n, calculate_streaks habit_data !! habit = Some n
        ∧ 1 <= n <= Z.of_nat (length (dates_of habit habit_data)))
  ∧ (habit ∉ h_name <$> habit_data →
     calculate_streaks habit_data !! habit = None)
  ∧ (default 0 (calculate_streaks habit_data !! habit) = 0
     ↔ habit ∉ h_name <$> habit_data).
Proof.
  rewrite calculate_streaks_lookup.
  pose proof (streak_loop_bounds (sort_values (dates_of habit habit_data)))
    as (Hcur & Hmax & Hpos).
  rewrite sort_values_length in Hmax.
  destruct (decide (habit ∈ h_name <$> habit_data)) as [Hin|Hin].
  - assert (Hne : sort_values (dates_of habit habit_data) ≠ []).
    { intros Hnil. apply (dates_of_nonempty _ _ Hin).
      apply Permutation_nil_r. by rewrite <- Hnil, sort_values_Permutation. }
    specialize (Hpos Hne). unfold longest_streak. split; [|split].
    + intros _. eexists. split; [done|]. lia.
    + done.
    + simpl. split; [lia|done].
  - split; [done|]. split; [done|]. simpl. tauto.
Qed.

Lemma calculate_streaks_get_witness :
  ∃ n, calculate_streaks (Samples.load Samples.three_days) !! "Read" = Some n
       ∧ 1 <= n
          <= Z.of_nat (length (dates_of "Read" (Samples.load Samples.three_days))).
Proof.
  apply (proj1 (calculate_streaks_get (Samples.load Samples.three_days) "Read")).
  vm_compute. left.
Defined.

(** The streaks do not depend on the order of the rows of the frame. *)
Theorem calculate_streaks_Permutation (data1 data2 : list habit_entry) :
  data1 ≡ₚ data2 → calculate_streaks data1 = calculate_streaks data2.
Proof.
  intros Hp. apply map_eq. intros habit. rewrite !calculate_streaks_lookup.
  assert (Hd : longest_streak habit data1 = longest_streak habit data2).
  { unfold longest_streak. f_equal. f_equal. apply sort_values_perm_eq.
    unfold dates_of. by rewrite Hp. }
  rewrite Hd.
  destruct (decide (habit ∈ h_name <$> data1)) as [H1|H1],
           (decide (habit ∈ h_name <$> data2)) as [H2|H2]; try done;
    exfalso; rewrite Hp in H1; done.
Qed.

Lemma calculate_streaks_Permutation_witness :
  calculate_streaks (Samples.load Samples.three_days)
  = calculate_streaks (reverse (Samples.load Samples.three_days)).
Proof.
  apply calculate_streaks_Permutation. symmetry. apply reverse_Permutation.
Defined.

(** An entry of another habit does not change the streak of a habit,
    wherever in the frame it stands. *)
Theorem calculate_streaks_other_habit (l1 l2 : list habit_entry)
    (e : habit_entry) (habit : string) :
  h_name e ≠ habit →
  calculate_streaks (l1 ++ e :: l2) !! habit
  = calculate_streaks (l1 ++ l2) !! habit.
Proof.
  intros Hne. rewrite !calculate_streaks_lookup.
  assert (Hd : longest_streak habit (l1 ++ e :: l2)
               = longest_streak habit (l1 ++ l2)).
  { unfold longest_streak.
    by rewrite !dates_of_app, dates_of_cons, decide_False. }
  assert (Hiff : habit ∈ h_name <$> l1 ++ e :: l2 ↔ habit ∈ h_name <$> l1 ++ l2).
  { rewrite !fmap_app, fmap_cons, !elem_of_app, elem_of_cons.
    split; [intros [?|[?|?]]|intros [?|?]]; auto. congruence. }
  rewrite Hd.
  destruct (decide (habit ∈ h_name <$> l1 ++ e :: l2)) as [Hin1|Hin1],
           (decide (habit ∈ h_name <$> l1 ++ l2)) as [Hin2|Hin2];
    try done; tauto.
Qed.

Lemma calculate_streaks_other_habit_witness :
  calculate_streaks
    (Samples.load Samples.three_days
     ++ mk_entry 9 1 "Run" NaT "Started" None :: []) !! "Read"
  = calculate_streaks (Samples.load Samples.three_days ++ []) !! "Read".
Proof. by apply calculate_streaks_other_habit. Defined.


(** An entry without a date does not change the streak of a habit that
    has another entry: it goes to the end of the sorted dates, where it
    only sets the current streak back to 1. *)
Theorem calculate_streaks_missing_date (l1 l2 : list habit_entry)
    (e : habit_entry) :
  h_date e = NaT →
  h_name e ∈ h_name <$> l1 ++ l2 →
  calculate_streaks (l1 ++ e :: l2) !! h_name e
  = calculate_streaks (l1 ++ l2) !! h_name e.
Proof.
  intros Hnat Hin. rewrite !calculate_streaks_lookup.
  rewrite (decide_True _ _ Hin), decide_True
    by (rewrite fmap_app, fmap_cons, elem_of_app, elem_of_cons; auto).
  f_equal. unfold longest_streak.
  rewrite (sort_values_perm_eq _ (dates_of (h_name e) (l1 ++ l2) ++ [NaT])).
  - rewrite sort_values_snoc by (by intros [?|] _).
    rewrite streak_loop_snoc, streak_step_max.
    rewrite streak_step_reset by apply continues_NaT_r.
    pose proof (streak_loop_bounds (sort_values (dates_of (h_name e) (l1 ++ l2))))
      as (Hcur & _ & Hpos).
    assert (Hne : sort_values (dates_of (h_name e) (l1 ++ l2)) ≠ []).
    { intros Hnil. apply (dates_of_nonempty _ _ Hin).
      apply Permutation_nil_r. by rewrite <- Hnil, sort_values_Permutation. }
    specialize (Hpos Hne). lia.
  - rewrite !dates_of_app, dates_of_cons, decide_True, Hnat by done.
    rewrite <- app_assoc. apply Permutation_app_head.
    by rewrite <- Permutation_cons_append.
Qed.

Lemma calculate_streaks_missing_date_witness :
  calculate_streaks
    (Samples.load Samples.three_days
     ++ mk_entry 9 1 "Read" NaT "completed" None :: []) !! "Read"
  = calculate_streaks (Samples.load Samples.three_days ++ []) !! "Read".
Proof.
  apply (calculate_streaks_missing_date (Samples.load Samples.three_days) []
           (mk_entry 9 1 "Read" NaT "completed" None)).
  - reflexivity.
  - vm_compute. left.
Defined.



Lemma whole_days_snoc (p t : Z) (ts : list Z) :
  whole_days p (ts ++ [t])
  ↔ whole_days p ts ∧ (t - default p (last ts)) / US_PER_DAY = 1.
Proof.
  revert p. induction ts as [|a ts IH]; intros p.
  - simpl. tauto.
  - cbn [app whole_days]. rewrite IH.
    replace (default p (last (a :: ts))) with (default a (last ts))
      by (by destruct ts as [|b ts] using rev_ind; [|rewrite app_comm_cons, !last_snoc]).
    tauto.
Qed.

(** Only a column in which every timestamp is a whole day after the one
    before makes the loop count every row. *)
Lemma streak_loop_full (p : Z) (ts : list Z) :
  prev_date (streak_loop (Timestamp <$> p :: ts))
  = Some (Timestamp (default p (last ts)))
  ∧ (current_streak (streak_loop (Timestamp <$> p :: ts))
     = Z.of_nat (length (p :: ts)) → whole_days p ts)
  ∧ (max_streak (streak_loop (Timestamp <$> p :: ts))
     = Z.of_nat (length (p :: ts)) → whole_days p ts).
Proof.
  induction ts as [|t ts IH] using rev_ind; [by cbn|].
  destruct IH as (Hprev & Hcur & Hmax).
  pose proof (streak_loop_bounds (Timestamp <$> p :: ts)) as (Hb1 & Hb2 & Hb3).
  rewrite length_fmap in Hb2.
  assert (Heq : Timestamp <$> p :: ts ++ [t]
                = (Timestamp <$> p :: ts) ++ [Timestamp t])
    by (by rewrite app_comm_cons, fmap_app).
  rewrite Heq, streak_loop_snoc, last_snoc, whole_days_snoc. clear Heq.
  unfold streak_step. cbn [prev_date current_streak max_streak default].
  rewrite Hprev, continues_Timestamp.
  cbn [length] in *. rewrite length_app, !Nat2Z.inj_succ, Nat2Z.inj_add in *.
  cbn [length]. change (Z.of_nat 1) with 1.
  split; [done|].
  destruct (Z.eqb_spec ((t - default p (last ts)) / US_PER_DAY) 1) as [Hd|Hd].
  - split; intros Heq; (split; [|done]); [apply Hcur|apply Hcur]; lia.
  - split; intros Heq; exfalso; lia.
Qed.

(** The longest streak of a habit equals the number of its entries
    exactly when, in the order of time, every entry is at least one and
    less than two whole days after the one before. *)
Theorem calculate_streaks_full_iff (habit_data : list habit_entry)
    (habit : string) (p : Z) (ts : list Z) :
  sort_values (dates_of habit habit_data) = Timestamp <$> p :: ts →
  calculate_streaks habit_data !! habit = Some (Z.of_nat (length (p :: ts)))
  ↔ whole_days p ts.
Proof.
  intros Hs. rewrite calculate_streaks_lookup, decide_True.
  - unfold longest_streak. rewrite Hs. split.
    + intros [= Heq]. by apply streak_loop_full.
    + intros Hw. f_equal. by apply streak_loop_whole_days.
  - apply (dates_of_name _ _ (Timestamp p)).
    rewrite <- (sort_values_Permutation (dates_of habit habit_data)), Hs. left.
Qed.

Lemma calculate_streaks_full_iff_witness :
  calculate_streaks (Samples.load Samples.three_days) !! "Read" = Some 3
  ↔ whole_days 1709294400000000 [1709380800000000; 1709467200000000].
Proof.
  apply (calculate_streaks_full_iff (Samples.load Samples.three_days) "Read"
           1709294400000000 [1709380800000000; 1709467200000000]).
  vm_compute. reflexivity.
Defined.

End StreakFacts.

(** ** Row ids and user names *)

Section StoreFacts.

Variable adapt_datetime : pydatetime → string.
Variable to_datetime : string → string → datetime64.

Lemma next_rowid_fresh (seq : Z) (ids : list Z) (i : Z) :
  i ∈ ids → i < next_rowid seq ids.
Proof.
  unfold next_rowid. induction ids as [|a ids IH]; intros Hin.
  - by apply elem_of_nil in Hin.
  - cbn [foldr]. apply elem_of_cons in Hin as [->|Hin]; [lia|].
    specialize (IH Hin). lia.
Qed.

Lemma next_rowid_positive (seq : Z) (ids : list Z) : 1 <= next_rowid seq ids.
Proof.
  unfold next_rowid. assert (0 <= foldr Z.max 0 ids); [|lia].
  induction ids; cbn [foldr]; lia.
Qed.

Lemma NoDup_snoc_fresh (ids : list Z) (i : Z) :
  NoDup ids → (∀ j, j ∈ ids → j < i) → NoDup (ids ++ [i]).
Proof.
  intros Hnd Hlt. apply NoDup_app. split; [done|]. split.
  - intros j Hj Hi. apply list_elem_of_singleton in Hi as ->.
    specialize (Hlt _ Hj). lia.
  - apply NoDup_singleton.
Qed.

(** [register_user] keeps the user names distinct and the user ids
    distinct and never touches the habits: under a name that is taken
    the database stays as it is, and under a free name the table of
    users gets one more row, whose id is above all ids of the table. *)
Theorem register_user_unique (username password : string) (db : database) :
  NoDup (u_username <$> users db) →
  NoDup (u_id <$> users db) →
  NoDup (u_username <$> users (register_user username password db).2)
  ∧ NoDup (u_id <$> users (register_user username password db).2)
  ∧ habits (register_user username password db).2 = habits db
  ∧ (username ∈ u_username <$> users db →
     (register_user username password db).2 = db)
  ∧ (username ∉ u_username <$> users db →
     ∃ new_id,
       users (register_user username password db).2
       = users db ++ [mk_user new_id username password]
       ∧ ∀ u, u ∈ users db → u_id u < new_id).
Proof.
  intros Hnames Hids.
  destruct (decide (username ∈ u_username <$> users db)) as [Hin|Hin].
  - rewrite register_user_taken by done. cbn [snd].
    split; [done|]. split; [done|]. split; [done|]. split; done.
  - unfold register_user, insert_user. rewrite decide_False by done.
    cbn [snd users habits]. rewrite !fmap_app. cbn [fmap list_fmap].
    cbn [u_username u_id].
    assert (Hfresh : ∀ u, u ∈ users db →
              u_id u < next_rowid (users_seq db) (u_id <$> users db)).
    { intros u Hu. by apply next_rowid_fresh, list_elem_of_fmap_2. }
    split; [|split; [|split; [done|split; [done|]]]].
    + apply NoDup_app. split; [done|]. split; [|apply NoDup_singleton].
      intros x Hx Hx'. apply list_elem_of_singleton in Hx' as ->. done.
    + apply NoDup_snoc_fresh; [done|]. intros j Hj.
      by apply next_rowid_fresh.
    + intros _. by eexists.
Qed.

(** A second user on a table that has one. *)
Lemma register_user_unique_witness :
  NoDup (u_username
         <$> users (register_user "bob" "pw2"
                      (register_user "alice" "pw" create_tables).2).2)
  ∧ NoDup (u_id
           <$> users (register_user "bob" "pw2"
                        (register_user "alice" "pw" create_tables).2).2)
  ∧ habits (register_user "bob" "pw2"
              (register_user "alice" "pw" create_tables).2).2
    = habits (register_user "alice" "pw" create_tables).2
  ∧ ("bob" ∈ u_username <$> users (register_user "alice" "pw" create_tables).2 →
     (register_user "bob" "pw2" (register_user "alice" "pw" create_tables).2).2
     = (register_user "alice" "pw" create_tables).2)
  ∧ ("bob" ∉ u_username <$> users (register_user "alice" "pw" create_tables).2 →
     ∃ new_id,
       users (register_user "bob" "pw2"
                (register_user "alice" "pw" create_tables).2).2
       = users (register_user "alice" "pw" create_tables).2
         ++ [mk_user new_id "bob" "pw2"]
       ∧ ∀ u, u ∈ users (register_user "alice" "pw" create_tables).2 →
              u_id u < new_id).
Proof.
  apply (register_user_unique "bob" "pw2"
           (register_user "alice" "pw" create_tables).2);
    vm_compute; apply NoDup_singleton.
Defined.

Lemma filter_unique_key {A : Type} (f : A → string) (Q : A → Prop)
    `{∀ x, Decision (Q x)} (l : list A) (x : A) :
  NoDup (f <$> l) → x ∈ l → Q x →
  filter (λ y, f y = f x ∧ Q y) l = [x].
Proof.
  induction l as [|a l IH]; intros Hnd Hin HQ.
  - by apply elem_of_nil in Hin.
  - rewrite fmap_cons in Hnd. apply NoDup_cons in Hnd as [Ha Hnd].
    rewrite filter_cons. apply elem_of_cons in Hin as [->|Hin].
    + rewrite decide_True by done. f_equal.
      destruct (filter _ l) as [|b k] eqn:Hf; [done|]. exfalso.
      assert (Hb : b ∈ filter (λ y, f y = f a ∧ Q y) l) by (rewrite Hf; left).
      apply list_elem_of_filter in Hb as [[Hfb _] Hb].
      apply Ha. rewrite <- Hfb. by apply list_elem_of_fmap_2.
    + rewrite decide_False; [by apply IH|].
      intros [Hfa _]. apply Ha. rewrite Hfa. by apply list_elem_of_fmap_2.
Qed.

(** While the user names are distinct, the credentials of a stored user
    log in as that very user. *)
Theorem login_user_unique (u : user_row) (db : database) :
  NoDup (u_username <$> users db) →
  u ∈ users db →
  login_user (u_username u) (u_password u) db = Some u.
Proof.
  intros Hnd Hin. unfold login_user, select_user.
  by rewrite (filter_unique_key u_username
                (λ y, u_password y = u_password u) (users db) u).
Qed.

Lemma login_user_unique_witness :
  login_user "alice" "pw" (register_user "alice" "pw" create_tables).2
  = Some (mk_user 1 "alice" "pw").
Proof.
  apply (login_user_unique (mk_user 1 "alice" "pw")
           (register_user "alice" "pw" create_tables).2).
  - vm_compute. apply NoDup_singleton.
  - vm_compute. left.
Defined.

(** A registration under one name changes nothing for another name:
    the same credentials log in to the same row (or fail) as before, and
    every user's entries are as before. *)
Theorem register_user_other (username password other pw : string)
    (db : database) (user_id : Z) :
  other ≠ username →
  login_user other pw (register_user username password db).2
  = login_user other pw db
  ∧ load_user_habits to_datetime user_id (register_user username password db).2
    = load_user_habits to_datetime user_id db.
Proof.
  intros Hne.
  destruct (decide (username ∈ u_username <$> users db)) as [Hin|Hin].
  - by rewrite register_user_taken.
  - destruct (register_user_free username password db Hin) as [new_id ->].
    cbn [snd]. split; [|done].
    unfold login_user, select_user. cbn [users].
    rewrite filter_app, filter_cons, decide_False, filter_nil, app_nil_r; [done|].
    cbn [u_username]. intros [Heq _]. by apply Hne.
Qed.

Lemma insert_habit_ids (user_id : Z) (name date status : string)
    (notes : option string) (db : database) :
  NoDup (r_id <$> habits db) →
  NoDup (r_id <$> habits (insert_habit user_id name date status notes db)).
Proof.
  intros Hnd. unfold insert_habit. cbn [habits]. rewrite fmap_app.
  apply NoDup_snoc_fresh; [done|]. intros j Hj. by apply next_rowid_fresh.
Qed.

Lemma insert_habit_fresh (user_id : Z) (name date status : string)
    (notes : option string) (db : database) :
  ∃ r, habits (insert_habit user_id name date status notes db)
       = habits db ++ [r]
       ∧ ∀ r0, r0 ∈ habits db → r_id r0 < r_id r.
Proof.
  unfold insert_habit. cbn [habits]. eexists. split; [done|].
  intros r0 Hr0. cbn [r_id]. by apply next_rowid_fresh, list_elem_of_fmap_2.
Qed.

(** [add_habit] and [log_habit_progress] give the row they append an id
    above every id of the table and so keep the ids of the habit rows
    distinct; the entries of a loaded frame then have distinct ids. *)
Theorem habit_ids_unique (user_id : Z) (habit_name notes status : string)
    (now : pydatetime) (db : database) :
  NoDup (r_id <$> habits db) →
  (∃ r, habits (add_habit adapt_datetime user_id habit_name notes now db)
        = habits db ++ [r]
        ∧ ∀ r0, r0 ∈ habits db → r_id r0 < r_id r)
  ∧ NoDup (r_id <$> habits (add_habit adapt_datetime user_id habit_name notes now db))
  ∧ (∃ r, habits (log_habit_progress adapt_datetime user_id habit_name status
                    now db)
          = habits db ++ [r]
          ∧ ∀ r0, r0 ∈ habits db → r_id r0 < r_id r)
  ∧ NoDup (r_id <$> habits
             (log_habit_progress adapt_datetime user_id habit_name status now db))
  ∧ NoDup (h_id <$> load_user_habits to_datetime user_id db).
Proof.
  intros Hnd. split; [apply insert_habit_fresh|].
  split; [by apply insert_habit_ids|].
  split; [apply insert_habit_fresh|].
  split; [by apply insert_habit_ids|].
  rewrite load_user_habits_fmap. unfold select_habits.
  rewrite <- list_fmap_compose.
  change (h_id ∘ entry_of_row (to_datetime (first_date user_id "" db)))
    with r_id.
  induction (habits db) as [|r l IH]; [constructor|].
  rewrite fmap_cons in Hnd. apply NoDup_cons in Hnd as [Hr Hnd].
  rewrite filter_cons. case_decide; [|by apply IH].
  rewrite fmap_cons. apply NoDup_cons. split; [|by apply IH].
  intros Hin. apply Hr. apply list_elem_of_fmap in Hin as (r' & -> & Hr').
  apply list_elem_of_filter in Hr' as [_ Hr']. by apply list_elem_of_fmap_2.
Qed.

(** [add_habit] appends exactly one row, with the status "Started" and
    the notes given, also under a name the user already has; the user's
    frame afterwards is the frame before followed by that entry, and
    nothing else changes. *)
Theorem add_habit_appends (user_id : Z) (habit_name notes : string)
    (now : pydatetime) (db : database) :
  ∃ (r : habit_row) (e : habit_entry),
    habits (add_habit adapt_datetime user_id habit_name notes now db)
    = habits db ++ [r]
    ∧ r_user_id r = user_id ∧ r_name r = habit_name
    ∧ r_status r = "Started" ∧ r_notes r = Some notes
    ∧ users (add_habit adapt_datetime user_id habit_name notes now db) = users db
    ∧ load_user_habits to_datetime user_id
        (add_habit adapt_datetime user_id habit_name notes now db)
      = load_user_habits to_datetime user_id db ++ [e]
    ∧ h_name e = habit_name ∧ h_status e = "Started" ∧ h_notes e = Some notes
    ∧ (∀ other, other ≠ user_id →
         load_user_habits to_datetime other
           (add_habit adapt_datetime user_id habit_name notes now db)
         = load_user_habits to_datetime other db).
Proof.
  unfold add_habit. eexists _, _. split; [reflexivity|]. repeat split.
  - apply load_user_habits_insert.
  - done.
  - done.
  - done.
  - intros other Hne. unfold load_user_habits.
    rewrite select_habits_insert, decide_False by done.
    by rewrite app_nil_r.
Qed.

End StoreFacts.

Lemma register_user_other_witness :
  login_user "alice" "pw"
    (register_user "bob" "pw" (register_user "alice" "pw" create_tables).2).2
  = login_user "alice" "pw" (register_user "alice" "pw" create_tables).2
  ∧ load_user_habits Iso.to_datetime_iso 1
      (register_user "bob" "pw" (register_user "alice" "pw" create_tables).2).2
    = load_user_habits Iso.to_datetime_iso 1
        (register_user "alice" "pw" create_tables).2.
Proof.
  apply (register_user_other Iso.to_datetime_iso "bob" "pw" "alice" "pw"). done.
Defined.


(** On a table that has three rows. *)
Lemma habit_ids_unique_witness :
  (∃ r, habits (add_habit Iso.isoformat_space 1 "Run" "weekly"
                  (Samples.march 4 8) Samples.three_days)
        = habits Samples.three_days ++ [r]
        ∧ ∀ r0, r0 ∈ habits Samples.three_days → r_id r0 < r_id r)
  ∧ NoDup (r_id <$> habits
             (add_habit Iso.isoformat_space 1 "Run" "weekly"
                (Samples.march 4 8) Samples.three_days))
  ∧ (∃ r, habits (log_habit_progress Iso.isoformat_space 1 "Run" "completed"
                    (Samples.march 4 8) Samples.three_days)
          = habits Samples.three_days ++ [r]
          ∧ ∀ r0, r0 ∈ habits Samples.three_days → r_id r0 < r_id r)
  ∧ NoDup (r_id <$> habits
             (log_habit_progress Iso.isoformat_space 1 "Run" "completed"
                (Samples.march 4 8) Samples.three_days))
  ∧ NoDup (h_id <$> load_user_habits Iso.to_datetime_iso 1 Samples.three_days).
Proof.
  apply (habit_ids_unique Iso.isoformat_space Iso.to_datetime_iso
           1 "Run" "weekly" "completed" (Samples.march 4 8) Samples.three_days).
  apply (bool_decide_unpack _). vm_compute. exact I.
Defined.

(** ** More on the visualisation page *)

Section VisualisationFacts.






Lemma series_min_le (l : list datetime64) (t : Z) :
  Timestamp t ∈ l → ∃ m, series_min l = Timestamp m ∧ m <= t.
Proof.
  induction l as [|d l IH]; intros Hin; [by apply elem_of_nil in Hin|].
  cbn [series_min foldr]. fold (series_min l).
  apply elem_of_cons in Hin as [<-|Hin].
  - destruct (series_min l) as [a|]; eexists; (split; [done|]); lia.
  - destruct (IH Hin) as (m & -> & Hm).
    destruct d as [t'|]; eexists; (split; [done|]); lia.
Qed.

Lemma series_max_ge (l : list datetime64) (t : Z) :
  Timestamp t ∈ l → ∃ m, series_max l = Timestamp m ∧ t <= m.
Proof.
  induction l as [|d l IH]; intros Hin; [by apply elem_of_nil in Hin|].
  cbn [series_max foldr]. fold (series_max l).
  apply elem_of_cons in Hin as [<-|Hin].
  - destruct (series_max l) as [a|]; eexists; (split; [done|]); lia.
  - destruct (IH Hin) as (m & -> & Hm).
    destruct d as [t'|]; eexists; (split; [done|]); lia.
Qed.

Lemma series_min_NaT (l : list datetime64) :
  series_min l = NaT ↔ Forall (λ d, d = NaT) l.
Proof.
  induction l as [|d l IH]; [by split; [constructor|]|].
  cbn [series_min foldr]. fold (series_min l). rewrite Forall_cons, <- IH.
  destruct d as [t|], (series_min l) as [a|]; split; try done;
    intros [? ?]; done.
Qed.

Lemma series_max_NaT (l : list datetime64) :
  series_max l = NaT ↔ Forall (λ d, d = NaT) l.
Proof.
  induction l as [|d l IH]; [by split; [constructor|]|].
  cbn [series_max foldr]. fold (series_max l). rewrite Forall_cons, <- IH.
  destruct d as [t|], (series_max l) as [a|]; split; try done;
    intros [? ?]; done.
Qed.

Lemma filter_ext_in {A : Type} (P Q : A → Prop) `{∀ x, Decision (P x)}
    `{∀ x, Decision (Q x)} (l : list A) :
  (∀ x, x ∈ l → P x ↔ Q x) → filter P l = filter Q l.
Proof.
  induction l as [|a l IH]; intros Hext; [done|].
  rewrite !filter_cons, IH by (intros x Hx; apply Hext; by right).
  destruct (decide (P a)) as [HP|HP], (decide (Q a)) as [HQ|HQ]; try done;
    exfalso; apply (Hext a) in HP || apply (Hext a) in HQ; done || by left.
Qed.

Lemma to_date_mono (a b : Z) : a <= b → to_date a <= to_date b.
Proof. intros Hle. unfold to_date. by apply Z.div_le_mono. Qed.

(** The page has default dates exactly when some entry of the frame has
    a date; and with the default range left as it is, the selection
    keeps every entry of the selected habit that has a date. *)
Theorem default_dates_keep_all (habits_data : list habit_entry)
    (selected_habit : string) :
  (default_dates habits_data = None
   ↔ Forall (λ e, h_date e = NaT) habits_data)
  ∧ (∀ start_date end_date,
       default_dates habits_data = Some (start_date, end_date) →
       filtered_data habits_data selected_habit start_date end_date
       = filter (λ e, h_name e = selected_habit ∧ h_date e ≠ NaT) habits_data).
Proof.
  unfold default_dates. split.
  - assert (Hall : Forall (λ e, h_date e = NaT) habits_data
                   ↔ series_min (h_date <$> habits_data) = NaT).
    { by rewrite series_min_NaT, Forall_fmap. }
    rewrite Hall.
    destruct (series_min (h_date <$> habits_data)) as [m|] eqn:Hmin; simpl.
    + destruct (series_max (h_date <$> habits_data)) as [m'|] eqn:Hmax; simpl.
      * done.
      * apply series_max_NaT, series_min_NaT in Hmax. congruence.
    + done.
  - intros start_date end_date Hd.
    destruct (series_min (h_date <$> habits_data)) as [m|] eqn:Hmin; [|done].
    destruct (series_max (h_date <$> habits_data)) as [m'|] eqn:Hmax; [|done].
    simpl in Hd. injection Hd as <- <-.
    unfold filtered_data. apply filter_ext_in.
    intros e He. rewrite filtered_data_mask. unfold kept, in_range.
    destruct (h_date e) as [t|] eqn:Ht; [|tauto].
    assert (Hin : Timestamp t ∈ h_date <$> habits_data).
    { rewrite <- Ht. by apply list_elem_of_fmap_2. }
    destruct (series_min_le _ _ Hin) as (m1 & Hm1 & Hle1).
    destruct (series_max_ge _ _ Hin) as (m2 & Hm2 & Hle2).
    rewrite Hmin in Hm1. rewrite Hmax in Hm2.
    injection Hm1 as <-. injection Hm2 as <-.
    apply to_date_mono in Hle1, Hle2. split.
    + intros [Hn _]. by split.
    + intros [Hn _]. split; [done|lia].
Qed.

End VisualisationFacts.

(** ** The buttons *)

Section PageFacts.

Variable adapt_datetime : pydatetime → string.
Variable to_datetime : string → string → datetime64.

Lemma is_empty_false (s : string) : is_empty s = false ↔ s ≠ "".
Proof. unfold is_empty. by rewrite bool_decide_eq_false. Qed.

Lemma is_empty_true (s : string) : is_empty s = true ↔ s = "".
Proof. unfold is_empty. by rewrite bool_decide_eq_true. Qed.

Lemma register_clicked_store (username password confoirm_password : string)
    (clear : bool) (db : database) :
  (register_clicked username password confoirm_password clear db).2
  = if is_empty username || is_empty password
    then db
    else (register_user username password db).2.
Proof.
  unfold register_clicked.
  destruct (is_empty username || is_empty password); [done|].
  destruct (register_user username password db) as [[registered errors] db'].
  cbn [snd]. by repeat case_match.
Qed.

(** The button "Register" stores a new user as soon as name and password
    are not empty and the name is free, whatever the confirmation field
    holds; in every other case the database stays as it is, and the
    message that the passwords do not match is only ever shown for a name
    that is taken. *)
Theorem register_clicked_confirmation (username password confoirm_password : string)
    (clear : bool) (db : database) :
  (username ≠ "" → password ≠ "" → username ∉ u_username <$> users db →
   (register_clicked username password confoirm_password clear db).1
   = [st_success "Registered successfully!"]
   ∧ ∃ new_id,
       users (register_clicked username password confoirm_password clear db).2
       = users db ++ [mk_user new_id username password])
  ∧ (username = "" ∨ password = "" ∨ username ∈ u_username <$> users db →
     (register_clicked username password confoirm_password clear db).2 = db)
  ∧ (st_error "Passwords do not match."
     ∈ (register_clicked username password confoirm_password clear db).1 →
     username ∈ u_username <$> users db).
Proof.
  split; [|split].
  - intros Hu Hp Hfree. unfold register_clicked.
    apply is_empty_false in Hu as ->. apply is_empty_false in Hp as ->.
    destruct (register_user_free username password db Hfree) as [new_id ->].
    cbn. split; [done|]. by exists new_id.
  - intros Hcase. rewrite register_clicked_store.
    destruct (is_empty username) eqn:Hu; [done|].
    destruct (is_empty password) eqn:Hp; [done|]. cbn [orb].
    apply is_empty_false in Hu, Hp.
    destruct Hcase as [?|[?|Hin]]; [done|done|].
    by rewrite register_user_taken.
  - unfold register_clicked.
    destruct (is_empty username || is_empty password).
    { intros Hin. apply list_elem_of_singleton in Hin. discriminate. }
    destruct (decide (username ∈ u_username <$> users db)) as [Hin|Hfree];
      [done|].
    destruct (register_user_free username password db Hfree) as [new_id ->].
    cbn. intros Hin. apply list_elem_of_singleton in Hin. discriminate.
Qed.

(** The button "Login" never changes the database. With credentials
    that are not empty and match a stored user it logs in, and the
    session then holds the id of a matching user and that user's stored
    entries; otherwise the whole state stays as it was, a session that
    was logged in included. *)
Theorem login_clicked_session (username password : string) (s : app_state) :
  store (login_clicked to_datetime username password s).2 = store s
  ∧ (username ≠ "" → password ≠ "" →
     (∃ u, u ∈ users (store s)
           ∧ u_username u = username ∧ u_password u = password) →
     ∃ u, u ∈ users (store s)
          ∧ u_username u = username ∧ u_password u = password
          ∧ session (login_clicked to_datetime username password s).2
            = {| logged_in := true;
                 session_user_id := Some (u_id u);
                 habits_data := load_user_habits to_datetime (u_id u) (store s) |})
  ∧ (username = "" ∨ password = ""
     ∨ (∀ u, u ∈ users (store s) → u_username u = username →
             u_password u ≠ password) →
     (login_clicked to_datetime username password s).2 = s).
Proof.
  unfold login_clicked. split; [|split].
  - destruct (is_empty username || is_empty password); [done|].
    by destruct (login_user username password (store s)).
  - intros Hu Hp Hex. apply is_empty_false in Hu as ->.
    apply is_empty_false in Hp as ->. cbn [orb].
    apply login_user_is_Some in Hex as [u Hlogin]. rewrite Hlogin. cbn.
    apply login_user_Some in Hlogin as (Hin & Hn & Hpw). by exists u.
  - intros Hcase.
    destruct (is_empty username) eqn:Hu; [done|].
    destruct (is_empty password) eqn:Hp; [done|]. cbn [orb].
    apply is_empty_false in Hu, Hp.
    destruct Hcase as [?|[?|Hwrong]]; [done|done|].
    destruct (login_user username password (store s)) as [u|] eqn:Hlogin;
      [|done].
    apply login_user_Some in Hlogin as (Hin & Hn & Hpw).
    by destruct (Hwrong u Hin Hn).
Qed.

End PageFacts.

(** ** What every sequence of clicks keeps *)

Section Invariants.

Variable adapt_datetime : pydatetime → string.
Variable to_datetime : string → string → datetime64.

Lemma row_ok_users (db db' : database) (r : habit_row) :
  u_id <$> users db ⊆ u_id <$> users db' → row_ok db r → row_ok db' r.
Proof. intros Hsub (Hn & Hs & Hu). repeat split; auto. Qed.

Lemma store_ok_register (username password : string) (db : database) :
  username ≠ "" → password ≠ "" →
  store_ok db → store_ok (register_user username password db).2.
Proof.
  intros Hu Hp (Hnames & Hids & Hrows & Hcred & Hrow & Hstart).
  destruct (decide (username ∈ u_username <$> users db)) as [Hin|Hfree].
  { by rewrite register_user_taken. }
  unfold register_user, insert_user. rewrite decide_False by done.
  cbn [snd]. unfold store_ok. cbn [users habits].
  rewrite !fmap_app. cbn [fmap list_fmap u_username u_id].
  split; [|split; [|split; [|split; [|split]]]].
  - apply NoDup_app. split; [done|]. split; [|apply NoDup_singleton].
    intros x Hx Hx'. by apply list_elem_of_singleton in Hx' as ->.
  - apply NoDup_snoc_fresh; [done|]. intros j Hj. by apply next_rowid_fresh.
  - done.
  - intros u [Hin|Hin%list_elem_of_singleton]%elem_of_app; [by apply Hcred|].
    by subst u.
  - intros r Hr. apply (row_ok_users db); [|by apply Hrow].
    cbn [users]. rewrite fmap_app. intros x Hx. apply elem_of_app. by left.
  - done.
Qed.

Lemma started_before_snoc (rows : list habit_row) (x : habit_row) :
  started_before rows →
  r_status x = "Started"
  ∨ (∃ r0, r0 ∈ rows ∧ r_user_id r0 = r_user_id x ∧ r_name r0 = r_name x) →
  started_before (rows ++ [x]).
Proof.
  intros Hrows Hx l1 r l2 Heq.
  destruct l2 as [|y l2 _] using rev_ind.
  - apply app_inj_tail in Heq as [<- <-].
    destruct Hx as [Hst|(r0 & Hr0 & Hu0 & Hn0)].
    + exists x. split; [apply elem_of_app; right; left|done].
    + apply list_elem_of_split in Hr0 as (a & b & Hab).
      destruct (Hrows a r0 b Hab) as (r' & Hr' & Hu' & Hn' & Hs').
      exists r'. split; [|split; [congruence|split; [congruence|done]]].
      apply elem_of_app. left. rewrite Hab.
      apply elem_of_app in Hr' as [Hr'|Hr'%list_elem_of_singleton].
      * apply elem_of_app. by left.
      * subst r'. apply elem_of_app. right. left.
  - rewrite app_comm_cons, app_assoc in Heq.
    apply app_inj_tail in Heq as [Heq _]. by apply (Hrows l1 r l2).
Qed.

Lemma store_ok_insert_habit (user_id : Z) (name date status : string)
    (notes : option string) (db : database) :
  store_ok db →
  name ≠ "" →
  status ∈ ["Started"; "completed"; "inprogress"; "skipped"] →
  user_id ∈ u_id <$> users db →
  status = "Started"
  ∨ (∃ r0, r0 ∈ habits db ∧ r_user_id r0 = user_id ∧ r_name r0 = name) →
  store_ok (insert_habit user_id name date status notes db).
Proof.
  intros (Hnames & Hids & Hrows & Hcred & Hrow & Hstart) Hname Hstatus Huser Hx.
  unfold store_ok.
  split; [done|]. split; [done|]. split; [by apply insert_habit_ids|].
  split; [done|]. unfold insert_habit at 1 2. cbn [habits]. split.
  - intros r [Hin|Hin%list_elem_of_singleton]%elem_of_app.
    + by apply (row_ok_users db), Hrow.
    + subst r. by repeat split.
  - by apply started_before_snoc.
Qed.

Lemma frame_name_row (user_id : Z) (db : database) (name : string) :
  name ∈ unique (h_name <$> load_user_habits to_datetime user_id db) →
  ∃ r0, r0 ∈ habits db ∧ r_user_id r0 = user_id ∧ r_name r0 = name.
Proof.
  rewrite elem_of_unique, load_user_habits_fmap. unfold select_habits.
  intros (e & -> & (r & -> & Hr)%list_elem_of_fmap)%list_elem_of_fmap.
  apply list_elem_of_filter in Hr as [Hu Hr]. by exists r.
Qed.

(** One run keeps the session and the database in order, and does not
    raise. *)
Lemma rerun_ok (c : click) (s : app_state) :
  session_ok to_datetime s → store_ok (store s) →
  ∃ shown s', rerun adapt_datetime to_datetime c s = Some (shown, s')
              ∧ session_ok to_datetime s' ∧ store_ok (store s').
Proof.
  intros Hsession Hstore. destruct c as [u p c clear|u p|name notes now|i st now].
  - cbn [rerun].
    pose proof (register_clicked_store u p c clear (store s)) as Hdb.
    destruct (register_clicked u p c clear (store s)) as [shown db] eqn:Hrc.
    cbn [snd] in Hdb. eexists _, _. split; [done|].
    assert (Hdb_ok : store_ok db ∧ users (store s) ⊆ users db
                     ∧ habits db = habits (store s)).
    { subst db. destruct (is_empty u) eqn:Hu; [done|].
      destruct (is_empty p) eqn:Hp; [done|]. cbn [orb].
      apply is_empty_false in Hu, Hp. split; [by apply store_ok_register|].
      destruct (decide (u ∈ u_username <$> users (store s))) as [Hin|Hfree].
      - by rewrite register_user_taken.
      - destruct (register_user_free u p (store s) Hfree) as [new_id ->].
        cbn. split; [|done]. intros x Hx. apply elem_of_app. by left. }
    destruct Hdb_ok as (Hok & Hsub & Hhabits). split; [|done].
    unfold session_ok in *. cbn [session store].
    destruct (logged_in (session s)); [|done].
    destruct Hsession as (usr & Hin & Hid & Hframe).
    exists usr. split; [by apply Hsub|]. split; [done|].
    rewrite Hframe. unfold load_user_habits, select_habits. by rewrite Hhabits.
  - cbn [rerun]. unfold login_clicked.
    destruct (is_empty u || is_empty p); [by eexists _, _|].
    destruct (login_user u p (store s)) as [usr|] eqn:Hlogin;
      [|by eexists _, _].
    eexists _, _. split; [done|]. split; [|done].
    unfold session_ok. cbn. apply login_user_Some in Hlogin as (Hin & _ & _).
    by exists usr.
  - cbn [rerun]. unfold session_ok in Hsession.
    destruct (logged_in (session s)) eqn:Hlog.
    2:{ eexists _, _. split; [done|]. split; [|done].
        unfold session_ok. by rewrite Hlog. }
    destruct Hsession as (usr & Hin & Hid & Hframe).
    unfold add_habit_clicked. destruct (is_empty name) eqn:Hname; cbn [negb].
    { eexists _, _. split; [done|]. split; [|done].
      unfold session_ok. rewrite Hlog. by exists usr. }
    rewrite Hid. cbn. eexists _, _. split; [done|].
    apply is_empty_false in Hname. split.
    + unfold session_ok. cbn [session logged_in session_user_id habits_data store].
      rewrite Hlog. by exists usr.
    + apply store_ok_insert_habit; auto.
      * left.
      * by apply list_elem_of_fmap_2.
  - cbn [rerun]. unfold session_ok in Hsession.
    destruct (logged_in (session s)) eqn:Hlog.
    2:{ eexists _, _. split; [done|]. split; [|done].
        unfold session_ok. by rewrite Hlog. }
    destruct Hsession as (usr & Hin & Hid & Hframe).
    assert (Hsame : session_ok to_datetime s).
    { unfold session_ok. rewrite Hlog. by exists usr. }
    unfold log_progress_clicked.
    destruct (bool_decide (habits_data (session s) ≠ [])); [|by eexists _, _].
    destruct (unique (h_name <$> habits_data (session s)) !! i)
      as [selected|] eqn:Hsel; [|by eexists _, _].
    rewrite Hid. cbn. eexists _, _. split; [done|].
    apply list_elem_of_lookup_2 in Hsel. rewrite Hframe in Hsel.
    apply frame_name_row in Hsel as (r0 & Hr0 & Hu0 & Hn0).
    destruct Hstore as (Hnames & Hids & Hrows & Hcred & Hrow & Hstart).
    destruct (Hrow r0 Hr0) as (Hname0 & _ & _). split.
    + unfold session_ok. cbn [session logged_in session_user_id habits_data store].
      rewrite Hlog. by exists usr.
    + apply store_ok_insert_habit.
      * done.
      * congruence.
      * destruct st; cbn [status_text];
          [do 1 right|do 2 right|do 3 right]; left.
      * by apply list_elem_of_fmap_2.
      * right. by exists r0.
Qed.

Lemma run_ok (clicks : list click) (s : app_state) :
  session_ok to_datetime s → store_ok (store s) →
  ∃ s', run adapt_datetime to_datetime clicks s = Some s'
        ∧ session_ok to_datetime s' ∧ store_ok (store s').
Proof.
  revert s. induction clicks as [|c clicks IH]; intros s Hsession Hstore.
  - by exists s.
  - destruct (rerun_ok c s Hsession Hstore) as (shown & s1 & Hrun & Hs1 & Hd1).
    cbn [run]. rewrite Hrun. cbn. by apply IH.
Qed.

Lemma app_init_ok : session_ok to_datetime app_init ∧ store_ok (store app_init).
Proof.
  split; [done|]. unfold store_ok. cbn.
  split; [constructor|]. split; [constructor|]. split; [constructor|].
  split; [by intros u Hu%elem_of_nil|]. split; [by intros r Hr%elem_of_nil|].
  intros l1 r l2 Heq. by destruct l1.
Qed.

End Invariants.

Section Sessions.

Variable adapt_datetime : pydatetime → string.
Variable to_datetime : string → string → datetime64.

(** From a state in order, no sequence of clicks makes the script raise
    on a missing [user_id]; and afterwards a session that is logged in
    names a stored user and holds exactly the entries stored for that
    user, while a session that is not logged in is still the initial
    one. *)
Theorem run_keeps_session (clicks : list click) (s : app_state) :
  session_ok to_datetime s → store_ok (store s) →
  ∃ s', run adapt_datetime to_datetime clicks s = Some s'
        ∧ (logged_in (session s') = true →
           ∃ u, u ∈ users (store s')
                ∧ session_user_id (session s') = Some (u_id u)
                ∧ habits_data (session s')
                  = load_user_habits to_datetime (u_id u) (store s'))
        ∧ (logged_in (session s') = false → session s' = session_init).
Proof.
  intros Hsession Hstore.
  destruct (run_ok adapt_datetime to_datetime clicks s Hsession Hstore)
    as (s' & Hrun & Hs' & _).
  exists s'. split; [done|]. unfold session_ok in Hs'.
  destruct (logged_in (session s')); split; done.
Qed.

(** From a state in order, every sequence of clicks leaves a database
    in which the user names are distinct, no user has an empty name or
    password, and every habit row has a name that is not empty, one of
    the statuses "Started", "completed", "inprogress" and "skipped", and
    a stored user as its owner. *)
Theorem run_keeps_rows (clicks : list click) (s s' : app_state) :
  session_ok to_datetime s → store_ok (store s) →
  run adapt_datetime to_datetime clicks s = Some s' →
  NoDup (u_username <$> users (store s'))
  ∧ (∀ u, u ∈ users (store s') → u_username u ≠ "" ∧ u_password u ≠ "")
  ∧ (∀ r, r ∈ habits (store s') →
       r_name r ≠ ""
       ∧ r_status r ∈ ["Started"; "completed"; "inprogress"; "skipped"]
       ∧ ∃ u, u ∈ users (store s') ∧ u_id u = r_user_id r).
Proof.
  intros Hsession Hstore Hrun.
  destruct (run_ok adapt_datetime to_datetime clicks s Hsession Hstore)
    as (s1 & Hrun1 & _ & Hok).
  rewrite Hrun in Hrun1. injection Hrun1 as <-.
  destruct Hok as (Hnames & _ & _ & Hcred & Hrow & _).
  split; [done|]. split; [done|].
  intros r Hr. destruct (Hrow r Hr) as (Hn & Hs & Hu).
  split; [done|]. split; [done|].
  apply list_elem_of_fmap in Hu as (u & Hid & Hu). by exists u.
Qed.

(** From a state in order, every sequence of clicks leaves a table of
    habits in which a row of progress comes after a "Started" row of the
    same user and name: through the pages, progress can only be logged
    for a habit that was added. *)
Theorem run_logs_added_habits (clicks : list click) (s s' : app_state) :
  session_ok to_datetime s → store_ok (store s) →
  run adapt_datetime to_datetime clicks s = Some s' →
  ∀ l1 r l2,
    habits (store s') = l1 ++ r :: l2 →
    r_status r ≠ "Started" →
    ∃ r', r' ∈ l1 ∧ r_user_id r' = r_user_id r ∧ r_name r' = r_name r
          ∧ r_status r' = "Started".
Proof.
  intros Hsession Hstore Hrun l1 r l2 Heq Hstatus.
  destruct (run_ok adapt_datetime to_datetime clicks s Hsession Hstore)
    as (s1 & Hrun1 & _ & Hok).
  rewrite Hrun in Hrun1. injection Hrun1 as <-.
  destruct Hok as (_ & _ & _ & _ & _ & Hstart).
  destruct (Hstart l1 r l2 Heq) as (r' & Hr' & Hu & Hn & Hs).
  exists r'. split; [|done].
  apply elem_of_app in Hr' as [Hr'|Hr'%list_elem_of_singleton]; [done|].
  by subst r'.
Qed.

Lemma rerun_append_only (c : click) (s s' : app_state) (shown : list message) :
  rerun adapt_datetime to_datetime c s = Some (shown, s') →
  users (store s) `prefix_of` users (store s')
  ∧ habits (store s) `prefix_of` habits (store s').
Proof.
  destruct c as [u p c clear|u p|name notes now|i st now]; cbn [rerun].
  - pose proof (register_clicked_store u p c clear (store s)) as Hdb.
    destruct (register_clicked u p c clear (store s)) as [shown' db].
    cbn [snd] in Hdb. intros [= _ <-]. cbn [store]. subst db.
    destruct (is_empty u || is_empty p); [done|].
    destruct (decide (u ∈ u_username <$> users (store s))) as [Hin|Hfree].
    + by rewrite register_user_taken.
    + destruct (register_user_free u p (store s) Hfree) as [new_id ->].
      cbn. split; [by eexists|done].
  - unfold login_clicked. repeat case_match; by intros [= _ <-].
  - destruct (logged_in (session s)); [|by intros [= _ <-]].
    unfold add_habit_clicked. destruct (is_empty name); cbn [negb];
      [by intros [= _ <-]|].
    destruct (session_user_id (session s)); [|done].
    cbn. intros [= _ <-]. cbn. split; [done|by eexists].
  - destruct (logged_in (session s)); [|by intros [= _ <-]].
    unfold log_progress_clicked.
    destruct (bool_decide _); [|by intros [= _ <-]].
    destruct (unique _ !! i); [|by intros [= _ <-]].
    destruct (session_user_id (session s)); [|done].
    cbn. intros [= _ <-]. cbn. split; [done|by eexists].
Qed.

(** No click changes or removes a stored user or habit row: after any
    sequence of clicks both tables start with the rows they had. *)
Theorem run_append_only (clicks : list click) (s s' : app_state) :
  run adapt_datetime to_datetime clicks s = Some s' →
  users (store s) `prefix_of` users (store s')
  ∧ habits (store s) `prefix_of` habits (store s').
Proof.
  revert s. induction clicks as [|c clicks IH]; intros s.
  - by intros [= <-].
  - cbn [run].
    destruct (rerun adapt_datetime to_datetime c s) as [[shown s1]|] eqn:Hc;
      [|done].
    cbn. intros Hrun. apply rerun_append_only in Hc as [Hu Hh].
    destruct (IH s1 Hrun) as [Hu' Hh']. split; by etrans.
Qed.

(** In a session that is logged in, a habit added with a name that is
    not empty is among the habits the page "Log Habit" offers, and
    logging it adds a second row: the table of habits ends with the
    "Started" row followed by the row of progress, both of that user and
    name. *)
Theorem add_then_log (new_habit notes : string) (now now' : pydatetime)
    (status : log_status) (s : app_state) :
  session_ok to_datetime s →
  logged_in (session s) = true →
  new_habit ≠ "" →
  ∃ shown s1 i shown' s2 user_id r1 r2,
    rerun adapt_datetime to_datetime (ClickAddHabit new_habit notes now) s
    = Some (shown, s1)
    ∧ unique (h_name <$> habits_data (session s1)) !! i = Some new_habit
    ∧ rerun adapt_datetime to_datetime (ClickLogProgress i status now') s1
      = Some (shown', s2)
    ∧ session_user_id (session s) = Some user_id
    ∧ habits (store s2) = habits (store s) ++ [r1; r2]
    ∧ r_user_id r1 = user_id ∧ r_name r1 = new_habit
    ∧ r_status r1 = "Started" ∧ r_notes r1 = Some notes
    ∧ r_user_id r2 = user_id ∧ r_name r2 = new_habit
    ∧ r_status r2 = status_text status ∧ r_notes r2 = None.
Proof.
  intros Hsession Hlog Hname. unfold session_ok in Hsession.
  rewrite Hlog in Hsession. destruct Hsession as (usr & Hin & Hid & Hframe).
  apply is_empty_false in Hname.
  set (db1 := add_habit adapt_datetime (u_id usr) new_habit notes now (store s)).
  assert (Hload : load_user_habits to_datetime (u_id usr) db1
                  = load_user_habits to_datetime (u_id usr) (store s)
                    ++ [mk_entry (next_rowid (habits_seq (store s))
                                    (r_id <$> habits (store s)))
                          (u_id usr) new_habit
                          (to_datetime
                             (first_date (u_id usr) (adapt_datetime now)
                                (store s))
                             (adapt_datetime now))
                          "Started" (Some notes)])
    by apply load_user_habits_insert.
  assert (Hsel : new_habit ∈ unique (h_name <$> load_user_habits to_datetime
                                                  (u_id usr) db1)).
  { apply elem_of_unique. rewrite Hload, fmap_app, elem_of_app. right. left. }
  apply list_elem_of_lookup_1 in Hsel as [i Hi].
  set (s1 := mk_app (mk_session (logged_in (session s)) (Some (u_id usr))
                       (load_user_habits to_datetime (u_id usr) db1)) db1).
  set (db2 := log_habit_progress adapt_datetime (u_id usr) new_habit
                (status_text status) now' db1).
  set (s2 := mk_app (mk_session (logged_in (session s)) (Some (u_id usr))
                       (load_user_habits to_datetime (u_id usr) db2)) db2).
  eexists _, s1, i, _, s2, (u_id usr), _, _.
  split.
  { cbn [rerun]. rewrite Hlog. unfold add_habit_clicked.
    rewrite Hname, Hid. reflexivity. }
  split; [exact Hi|]. split.
  { cbn [rerun]. unfold s1 at 1. cbn [session logged_in]. rewrite Hlog.
    unfold log_progress_clicked, s1.
    cbn [session habits_data session_user_id store].
    rewrite bool_decide_true, Hi; [reflexivity|].
    rewrite Hload. by destruct (load_user_habits _ _ _). }
  split; [done|]. split.
  { unfold s2, db2, db1. cbn [store].
    unfold log_habit_progress, add_habit, insert_habit.
    cbn [habits]. by rewrite <- app_assoc. }
  repeat split.
Qed.

End Sessions.

(** A session on a fresh database: two registrations, a login, a habit
    and two entries of progress. *)
Lemma run_keeps_session_witness :
  ∃ s', run Iso.isoformat_space Iso.to_datetime_iso
          [ClickRegister "alice" "pw" "" false;
           ClickLogin "alice" "pw";
           ClickAddHabit "Read" "daily" (Samples.march 1 8);
           ClickLogProgress 0 completed (Samples.march 2 8)] app_init = Some s'
        ∧ (logged_in (session s') = true →
           ∃ u, u ∈ users (store s')
                ∧ session_user_id (session s') = Some (u_id u)
                ∧ habits_data (session s')
                  = load_user_habits Iso.to_datetime_iso (u_id u) (store s'))
        ∧ (logged_in (session s') = false → session s' = session_init).
Proof.
  apply (run_keeps_session Iso.isoformat_space Iso.to_datetime_iso);
    apply (app_init_ok Iso.to_datetime_iso).
Defined.

Lemma run_keeps_rows_witness :
  ∃ s', run Iso.isoformat_space Iso.to_datetime_iso
          [ClickRegister "alice" "pw" "" false;
           ClickLogin "alice" "pw";
           ClickAddHabit "Read" "daily" (Samples.march 1 8)] app_init = Some s'
        ∧ NoDup (u_username <$> users (store s'))
        ∧ (∀ u, u ∈ users (store s') → u_username u ≠ "" ∧ u_password u ≠ "")
        ∧ (∀ r, r ∈ habits (store s') →
             r_name r ≠ ""
             ∧ r_status r ∈ ["Started"; "completed"; "inprogress"; "skipped"]
             ∧ ∃ u, u ∈ users (store s') ∧ u_id u = r_user_id r).
Proof.
  eexists. split; [vm_compute; reflexivity|].
  apply (run_keeps_rows Iso.isoformat_space Iso.to_datetime_iso
           [ClickRegister "alice" "pw" "" false;
            ClickLogin "alice" "pw";
            ClickAddHabit "Read" "daily" (Samples.march 1 8)] app_init).
  - apply (app_init_ok Iso.to_datetime_iso).
  - apply (app_init_ok Iso.to_datetime_iso).
  - vm_compute. reflexivity.
Defined.

Lemma run_logs_added_habits_witness :
  ∃ r', r' ∈ [mk_row 1 1 "Read" "2024-03-01 08:00:00" "Started" (Some "daily")]
        ∧ r_user_id r' = 1 ∧ r_name r' = "Read" ∧ r_status r' = "Started".
Proof.
  apply (run_logs_added_habits Iso.isoformat_space Iso.to_datetime_iso
           [ClickRegister "alice" "pw" "" false;
            ClickLogin "alice" "pw";
            ClickAddHabit "Read" "daily" (Samples.march 1 8);
            ClickLogProgress 0 completed (Samples.march 2 8)] app_init _
           (proj1 (app_init_ok Iso.to_datetime_iso))
           (proj2 (app_init_ok Iso.to_datetime_iso))
           ltac:(vm_compute; reflexivity)
           [mk_row 1 1 "Read" "2024-03-01 08:00:00" "Started" (Some "daily")]
           (mk_row 2 1 "Read" "2024-03-02 08:00:00" "completed" None) []).
  - vm_compute. reflexivity.
  - discriminate.
Defined.

(** From a database that has a user and three habit rows. *)
Lemma run_append_only_witness :
  ∃ s', run Iso.isoformat_space Iso.to_datetime_iso
          [ClickRegister "alice" "pw" "pw" false;
           ClickLogin "alice" "pw";
           ClickAddHabit "Run" "weekly" (Samples.march 4 8);
           ClickLogin "bob" "pw2";
           ClickLogProgress 0 skipped (Samples.march 4 9)]
          (mk_app session_init
                  (register_user "bob" "pw2" Samples.three_days).2)
        = Some s'
        ∧ users (register_user "bob" "pw2" Samples.three_days).2
          `prefix_of` users (store s')
        ∧ habits (register_user "bob" "pw2" Samples.three_days).2
          `prefix_of` habits (store s')
        ∧ length (users (store s')) = 2%nat
        ∧ length (habits (store s')) = 5%nat.
Proof.
  eexists. split; [vm_compute; reflexivity|].
  split; [|split; [|split; reflexivity]];
    apply (run_append_only Iso.isoformat_space Iso.to_datetime_iso
             [ClickRegister "alice" "pw" "pw" false;
              ClickLogin "alice" "pw";
              ClickAddHabit "Run" "weekly" (Samples.march 4 8);
              ClickLogin "bob" "pw2";
              ClickLogProgress 0 skipped (Samples.march 4 9)]
             (mk_app session_init
                     (register_user "bob" "pw2" Samples.three_days).2));
    vm_compute; reflexivity.
Defined.

Lemma add_then_log_witness :
  ∃ shown s1 i shown' s2 user_id r1 r2,
    rerun Iso.isoformat_space Iso.to_datetime_iso
      (ClickAddHabit "Read" "daily" (Samples.march 1 8))
      (mk_app (mk_session true (Some 1) [])
              (register_user "alice" "pw" create_tables).2)
    = Some (shown, s1)
    ∧ unique (h_name <$> habits_data (session s1)) !! i = Some "Read"
    ∧ rerun Iso.isoformat_space Iso.to_datetime_iso
        (ClickLogProgress i skipped (Samples.march 2 8)) s1
      = Some (shown', s2)
    ∧ Some 1 = Some user_id
    ∧ habits (store s2) = [] ++ [r1; r2]
    ∧ r_user_id r1 = user_id ∧ r_name r1 = "Read"
    ∧ r_status r1 = "Started" ∧ r_notes r1 = Some "daily"
    ∧ r_user_id r2 = user_id ∧ r_name r2 = "Read"
    ∧ r_status r2 = status_text skipped ∧ r_notes r2 = None.
Proof.
  apply (add_then_log Iso.isoformat_space Iso.to_datetime_iso
           "Read" "daily" (Samples.march 1 8) (Samples.march 2 8) skipped
           (mk_app (mk_session true (Some 1) [])
                   (register_user "alice" "pw" create_tables).2)).
  - exists (mk_user 1 "alice" "pw"). split; [vm_compute; left|]. by split.
  - reflexivity.
  - discriminate.
Defined.
